(** * Course settings REST handlers: hook path build and prune

    A shallow embedding of [modules/courses/settings.py]: the REST handlers
    [CourseYamlRESTHandler], [CourseSettingsRESTHandler] and
    [HtmlHookRESTHandler], with the nested-dict path builder of
    [HtmlHookRESTHandler.process_put] and the path pruner
    [HtmlHookRESTHandler._process_delete_internal].

    Python dicts with string keys are finite maps ([gmap string value]);
    the settings document is a tree of such maps.  A dict that the source
    reaches through a reference and mutates in place ([del d[k]]) is
    rebuilt in its parent here, which is what the mutation does to a
    tree-shaped document seen from its root.

    Also embedded: the availability and browsability posts of
    [CourseSettingsHandler] and the text file helpers of the advanced
    settings page. *)

From Stdlib Require Import ZArith String Ascii List.
From stdpp Require Import gmap strings list fin_maps.

Open Scope string_scope.

(** ** Python values and the primitives the handlers use *)

Module Py.

(** The values a YAML or JSON document is made of. *)
#[warnings="-register-all"] Inductive value : Type :=
  | VNone
  | VBool (b : bool)
  | VInt (z : Z)
  | VStr (s : string)
  | VList (l : list value)
  | VDict (d : gmap string value).

Inductive pyerror : Type :=
  | ValueError | TypeError | AttributeError | KeyError | IndexError
  | AssertionError.

(** A computation either returns or raises. *)
Inductive result (A : Type) : Type :=
  | Ok (a : A)
  | Raise (e : pyerror).
Arguments Ok {A} a.
Arguments Raise {A} e.

Definition rbind {A B} (r : result A) (f : A → result B) : result B :=
  match r with
  | Ok a => f a
  | Raise e => Raise e
  end.

(** [type(v) == dict] *)
Definition is_dict (v : value) : bool :=
  match v with
  | VDict _ => true
  | _ => false
  end.

(** Truth value of an object, as [if not v] tests it. *)
Definition truthy (v : value) : bool :=
  match v with
  | VNone => false
  | VBool b => b
  | VInt z => negb (Z.eqb z 0)
  | VStr s => negb (String.eqb s "")
  | VList l => match l with [] => false | _ => true end
  | VDict d => negb (bool_decide (d = ∅))
  end.

(** [d.get(k)] on a dict: [None] when the key is missing. *)
Definition dict_get (d : gmap string value) (k : string) : value :=
  default VNone (d !! k).

(** [obj.get(k)]: only dicts have the method. *)
Definition py_get (obj : value) (k : string) : result value :=
  match obj with
  | VDict d => Ok (dict_get d k)
  | _ => Raise AttributeError
  end.

(** [needle in hay] on strings: substring test. *)
Fixpoint str_contains (needle hay : string) : bool :=
  String.prefix needle hay ||
  match hay with
  | EmptyString => false
  | String _ hay' => str_contains needle hay'
  end.

(** [e in l] for a string [e] and a list [l]: some item equals [e]. *)
Definition list_contains_str (e : string) (l : list value) : bool :=
  existsb (λ v, match v with VStr s => String.eqb s e | _ => false end) l.

(** [e in container] for a string [e]: key test on a dict, substring
    test on a string, membership on a list; the other values are not
    iterable. *)
Definition py_contains (e : string) (container : value) : result bool :=
  match container with
  | VDict d => Ok (bool_decide (is_Some (d !! e)))
  | VStr s => Ok (str_contains e s)
  | VList l => Ok (list_contains_str e l)
  | _ => Raise TypeError
  end.

(** [container[k]] for a string [k]: only a dict can be subscripted by a
    string. *)
Definition py_subscript (container : value) (k : string) : result value :=
  match container with
  | VDict d =>
      match d !! k with
      | Some v => Ok v
      | None => Raise KeyError
      end
  | _ => Raise TypeError
  end.

(** [container[k] = v] for a string [k] *)
Definition py_setitem (container : value) (k : string) (v : value)
  : result value :=
  match container with
  | VDict d => Ok (VDict (<[ k := v ]> d))
  | _ => Raise TypeError
  end.

(** [a == b] on the hashable values; [True] and [False] compare as the
    integers 1 and 0. *)
Definition scalar_eqb (a b : value) : bool :=
  match a, b with
  | VNone, VNone => true
  | VStr s, VStr t => String.eqb s t
  | VBool x, VBool y => Bool.eqb x y
  | VInt x, VInt y => Z.eqb x y
  | VBool x, VInt y | VInt y, VBool x => Z.eqb (if x then 1 else 0) y
  | _, _ => false
  end.

(** [v in s] for a set [s] of hashable values: lists and dicts cannot be
    hashed. *)
Definition set_contains (v : value) (s : list value) : result bool :=
  match v with
  | VList _ | VDict _ => Raise TypeError
  | _ => Ok (existsb (scalar_eqb v) s)
  end.

(** [s.split(sep)] for a non-empty [sep]; [skip] counts the characters of
    a separator occurrence still to be passed over. *)
Fixpoint split_go (sep : string) (skip : nat) (s : string) : list string :=
  match s with
  | EmptyString => [EmptyString]
  | String c s' =>
      match skip with
      | S k => split_go sep k s'
      | O =>
          if String.prefix sep s
          then EmptyString :: split_go sep (String.length sep - 1) s'
          else match split_go sep O s' with
               | seg :: segs => String c seg :: segs
               | [] => [String c EmptyString]
               end
      end
  end.

(** [s.split(sep)]; an empty separator raises [ValueError]. *)
Definition str_split (s sep : string) : result (list string) :=
  if String.eqb sep "" then Raise ValueError else Ok (split_go sep O s).

(** [sep.join(l)] *)
Fixpoint str_join (sep : string) (l : list string) : string :=
  match l with
  | [] => ""
  | [s] => s
  | s :: rest => s ++ sep ++ str_join sep rest
  end.

End Py.
Import Py.

(** ** Constants of [controllers_utils.HtmlHooks]

    The class lives outside this module; its two constants are parameters
    of the development. *)
Record HtmlHooks : Type := {
  SEPARATOR : string;
  HTML_HOOKS : string;
}.

(** ** The path builder and the path pruner *)

Module HookPath.

(** The loop of [process_put]: starting from the hook content, wrap the
    dict built so far under each element of the reversed key path.
    <<
      course_dict = request_data['hook_content']
      for element in reversed(key.split(SEPARATOR)):
          course_dict = {element: course_dict}
    >> *)
Definition build (elements : list string) (hook_content : value) : value :=
  fold_left (λ course_dict element, VDict {[ element := course_dict ]})
            (rev elements) hook_content.

(** The right-nested mapping [{s0: {s1: {... {sn: leaf}}}}] written by
    recursion on the path, as the specification draws it. *)
Fixpoint right_nested (path : list string) (leaf : value) : value :=
  match path with
  | [] => leaf
  | s :: rest => VDict {[ s := right_nested rest leaf ]}
  end.

(** The loop of [_process_delete_internal] on a dict.
    <<
      pruned_dict = course_dict
      for element in key.split(SEPARATOR):
          if element in pruned_dict:
              if type(pruned_dict[element]) == dict:
                  pruned_dict = pruned_dict[element]
              else:
                  del pruned_dict[element]
    >>
    The argument is the dict [pruned_dict] points to; the result is that
    dict once the remaining elements have been processed.  Descending
    continues the loop inside the nested dict, whose final contents stay
    bound to [element]; after a [del], and when [element] is missing, the
    loop goes on with the next element in the same dict.  [prune_loop]
    below runs the loop iteration by iteration and yields the same
    document.  Documents are trees here: a dict object bound at two
    places, which the source would change at both, has no counterpart. *)
Fixpoint prune (pruned_dict : gmap string value) (elements : list string)
  : gmap string value :=
  match elements with
  | [] => pruned_dict
  | element :: rest =>
      match pruned_dict !! element with
      | Some (VDict nested) =>
          <[ element := VDict (prune nested rest) ]> pruned_dict
      | Some _ => prune (delete element pruned_dict) rest
      | None => prune pruned_dict rest
      end
  end.

(** The same loop when [course_dict] is not a dict (the caller passes
    whatever [html_hooks] is bound to): [pruned_dict] stays that value.
    When [element in pruned_dict] holds, the subscript
    [pruned_dict[element]] raises [TypeError]; nothing is ever
    modified. *)
Fixpoint scan_non_dict (pruned_dict : value) (elements : list string)
  : result unit :=
  match elements with
  | [] => Ok tt
  | element :: rest =>
      rbind (py_contains element pruned_dict) (λ present,
        if present
        then rbind (py_subscript pruned_dict element) (λ _, Raise TypeError)
        else scan_non_dict pruned_dict rest)
  end.

(** The loop of [_process_delete_internal] on any first argument:
    returns [course_dict] as it is after the loop. *)
Definition prune_value (course_dict : value) (elements : list string)
  : result value :=
  match course_dict with
  | VDict d => Ok (VDict (prune d elements))
  | _ => rbind (scan_non_dict course_dict elements) (λ _, Ok course_dict)
  end.

(** The value a path of keys leads to, starting from [v] and going
    through nested dicts only. *)
Fixpoint get_path (v : value) (path : list string) : option value :=
  match path with
  | [] => Some v
  | k :: rest =>
      match v with
      | VDict d =>
          match d !! k with
          | Some v' => get_path v' rest
          | None => None
          end
      | _ => None
      end
  end.

(** Every segment of [path], the last one included, is bound to a nested
    dict. *)
Fixpoint resolves_to_mappings (d : gmap string value) (path : list string)
  : bool :=
  match path with
  | [] => true
  | k :: rest =>
      match d !! k with
      | Some (VDict nested) => resolves_to_mappings nested rest
      | _ => false
      end
  end.

(** The path pruner as the specification words it: a segment bound to a
    dict is descended into, a segment bound to anything else is deleted
    and the traversal stops, a missing segment stops the traversal. *)
Fixpoint prune_stopping (d : gmap string value) (path : list string)
  : gmap string value :=
  match path with
  | [] => d
  | k :: rest =>
      match d !! k with
      | Some (VDict nested) => <[ k := VDict (prune_stopping nested rest) ]> d
      | Some _ => delete k d
      | None => d
      end
  end.

(** A key path is removed between [before] and [after] when it led to a
    value in the first document and leads nowhere in the second. *)
Definition removed (before after : gmap string value) (path : list string)
  : Prop :=
  is_Some (get_path (VDict before) path) ∧ get_path (VDict after) path = None.

(** *** The loop with its pointer

    The same loop, step by step: the state is the document [course_dict]
    and the place of [pruned_dict] in it, given by the keys descended
    through so far. *)

(** The dict the cursor points to. *)
Fixpoint dict_at (root : gmap string value) (cursor : list string)
  : option (gmap string value) :=
  match cursor with
  | [] => Some root
  | k :: rest =>
      match root !! k with
      | Some (VDict nested) => dict_at nested rest
      | _ => None
      end
  end.

(** The document once the dict the cursor points to has become [d']. *)
Fixpoint put_at (root : gmap string value) (cursor : list string)
    (d' : gmap string value) : gmap string value :=
  match cursor with
  | [] => d'
  | k :: rest =>
      match root !! k with
      | Some (VDict nested) => <[ k := VDict (put_at nested rest d') ]> root
      | _ => root
      end
  end.

(** One iteration of the loop body. *)
Definition prune_step (state : gmap string value * list string)
    (element : string) : gmap string value * list string :=
  let (root, cursor) := state in
  match dict_at root cursor with
  | Some pruned_dict =>
      match pruned_dict !! element with
      | Some (VDict _) => (root, (cursor ++ [element])%list)
      | Some _ => (put_at root cursor (delete element pruned_dict), cursor)
      | None => (root, cursor)
      end
  | None => (root, cursor)
  end.

(** The whole loop, started at the root. *)
Definition prune_loop (course_dict : gmap string value)
    (elements : list string) : gmap string value :=
  fst (fold_left prune_step elements (course_dict, [])).

(** [keeps_mappings d d']: every key path bound to a dict in [d] is still
    bound to a dict in [d']. *)
Definition keeps_mappings (d d' : gmap string value) : Prop :=
  ∀ path m, get_path (VDict d) path = Some (VDict m) →
            ∃ m', get_path (VDict d') path = Some (VDict m').

(** [shrinks d d']: whatever a key path leads to in [d'] it led to in [d]:
    a dict where it was a dict, and the very same value where it was not. *)
Definition shrinks (d d' : gmap string value) : Prop :=
  ∀ path v', get_path (VDict d') path = Some v' →
             ∃ v, get_path (VDict d) path = Some v
                  ∧ is_dict v = is_dict v'
                  ∧ (is_dict v = false → v = v').

(** The last element of [path] is the first one that is missing from the
    dict the traversal is in, or bound there to something else than a
    dict (or the path runs through dicts only). *)
Fixpoint ends_at_last (d : gmap string value) (path : list string) : bool :=
  match path with
  | [] => true
  | k :: rest =>
      match d !! k with
      | Some (VDict nested) => ends_at_last nested rest
      | _ => match rest with [] => true | _ => false end
      end
  end.

End HookPath.
Import HookPath.


(** ** The REST handlers *)

Module Rest.

(** The JSON envelope [transforms.send_json_response] writes. *)
Record response : Type := {
  status : Z;
  message : string;
  payload_dict : option value;
}.

(** What a request can observe and change: the persisted settings
    document ([course.yaml]), the locale labels of [models.LabelDAO], and
    the responses written so far. *)
Record hstate : Type := {
  course_yaml : gmap string value;
  labels : list value;
  sent : list response;
}.

(** The collaborators outside this module, as far as the handlers depend
    on them. *)
Record Env : Type := {
  hooks : HtmlHooks;
  (** [transforms.loads]; [None] stands for [ValueError] *)
  loads : string → option value;
  (** [app_context.is_editable_fs()] *)
  is_editable_fs : bool;
  (** [permissions.SchemaPermissionRegistry.can_edit(app_context)] *)
  can_edit : bool;
  (** validity of the token carried by a token dict, for an action *)
  xsrf_token_valid : value → string → bool;
  (** the response the token gate writes for a token that is not valid,
      given the arguments it is called with *)
  xsrf_failure : value → response;
  (** [courses.Course.get_environ] on the persisted document *)
  get_environ : gmap string value → gmap string value;
  (** [courses.deep_dict_merge] *)
  deep_dict_merge :
    gmap string value → gmap string value → gmap string value;
  (** the check [courses.Course.save_settings] makes before it writes *)
  settings_valid : gmap string value → bool;
  (** [convert_json_to_entity] of the course settings schema *)
  settings_convert_json_to_entity : value → result (gmap string value);
  (** the errors [validate] of the course settings schema reports *)
  settings_validate : gmap string value → list string;
  (** [REGISTRY.convert_json_to_entity] of the hook registry *)
  hook_convert_json_to_entity : value → result (gmap string value);
  (** what [request_data] holds once [redact_entity_to_schema(payload)]
      has run on the payload it was converted from *)
  redacted : value → gmap string value → gmap string value;
  (** [app_context.default_locale] *)
  default_locale : string;
}.

(** Handler code: reads and updates the state, returns or raises. *)
Definition M (A : Type) : Type := hstate → result A * hstate.

Definition ret {A} (a : A) : M A := λ st, (Ok a, st).

Definition raise {A} (e : pyerror) : M A := λ st, (Raise e, st).

Definition bind {A B} (m : M A) (f : A → M B) : M B :=
  λ st, match m st with
        | (Ok a, st') => f a st'
        | (Raise e, st') => (Raise e, st')
        end.

Definition lift {A} (r : result A) : M A := λ st, (r, st).

(** The state once one more response has been written. *)
Definition respond (st : hstate) (r : response) : hstate :=
  {| course_yaml := course_yaml st;
     labels := labels st;
     sent := sent st ++ [r] |}.

(** Between [st] and [st'] exactly one response was written, with status
    [code], and nothing else changed. *)
Definition answered (st st' : hstate) (code : Z) : Prop :=
  ∃ r, st' = respond st r ∧ status r = code.

(** The methods a REST handler class supplies to the verbs of
    [CourseYamlRESTHandler]. *)
Record Handler : Type := {
  XSRF_ACTION : string;
  process_put : value → value → M (option (gmap string value));
  postprocess_put : gmap string value → value → M (gmap string value);
  is_deletion_allowed : bool;
  process_delete : gmap string string → M (gmap string value);
}.

End Rest.
Import Rest.

Declare Scope handler_scope.
Delimit Scope handler_scope with handler.
Notation "x <- m ;; k" := (bind m (λ x, k))
  (at level 100, m at next level, right associativity) : handler_scope.
Notation "m ;; k" := (bind m (λ _, k))
  (at level 100, right associativity) : handler_scope.

(** *** Helpers shared by the handlers *)

Module Base.
Section WithEnv.

Variable env : Env.

Local Open Scope handler_scope.

(** A double quote and a line feed, for the messages. *)
Definition dq : string := String "034"%char EmptyString.
Definition nl : string := String "010"%char EmptyString.

(** [transforms.send_json_response(self, code, msg, payload_dict)] *)
Definition send_json_response (code : Z) (msg : string)
    (payload : option value) : M unit :=
  λ st, (Ok tt,
         respond st {| status := code; message := msg;
                       payload_dict := payload |}).

(** [self.request.get(name)]: the empty string when the parameter is
    missing. *)
Definition request_get (params : gmap string string) (name : string)
  : string :=
  default "" (params !! name).

(** The request parameters as a token dict. *)
Definition params_dict (params : gmap string string) : value :=
  VDict (VStr <$> params).

(** Modelled from the spec: [courses.Course.save_settings] is outside this
    module.  The document is written as a whole; a document that fails
    validation is rejected and the persisted one stays as it is. *)
Definition save_settings (course_settings : gmap string value) : M bool :=
  λ st, if settings_valid env course_settings
        then (Ok true,
              {| course_yaml := course_settings;
                 labels := labels st;
                 sent := sent st |})
        else (Ok false, st).

(** Modelled from the spec: [assert_xsrf_token_or_fail] of the base REST
    handler is outside this module.  All writes require a matching token,
    and a failure is reported as a status in the JSON envelope; which
    status a token failure gets is not stated, so the response written is
    the environment's [xsrf_failure].  The caller is told to stop. *)
Definition assert_xsrf_token_or_fail (token_dict : value) (action : string)
    (args_dict : value) : M bool :=
  if xsrf_token_valid env token_dict action then ret true
  else (λ st, (Ok false, respond st (xsrf_failure env args_dict))).

(** [transforms.loads] on a value taken from the request: a string is
    parsed ([None] for [ValueError]); anything else makes it raise an
    error [put] does not catch. *)
Definition loads_value (v : value) : result (option value) :=
  match v with
  | VStr s => Ok (loads env s)
  | _ => Raise TypeError
  end.

(** [models.LabelDAO.save] of a locale label with the given title *)
Definition save_label (title : value) : M unit :=
  λ st, (Ok tt,
         {| course_yaml := course_yaml st;
            labels := labels st ++ [title];
            sent := sent st |}).

(** The titles of the locale labels, [models.LabelDAO.get_all_of_type]. *)
Definition label_titles : M (list value) := λ st, (Ok (labels st), st).

End WithEnv.
End Base.
Import Base.

(** *** [CourseYamlRESTHandler] *)

Module CourseYamlRESTHandler.
Section WithEnv.

Variable env : Env.

Local Open Scope handler_scope.

(** [get_course_dict] *)
Definition get_course_dict : M (gmap string value) :=
  λ st, (Ok (get_environ env (course_yaml st)), st).

(** [put] *)
Definition put (h : Handler) (params : gmap string string) : M unit :=
  (if is_editable_fs env then ret tt else raise AssertionError) ;;
  let request_param := request_get params "request" in
  if negb (truthy (VStr request_param)) then
    send_json_response 400
      ("Missing " ++ dq ++ "request" ++ dq ++ " parameter.") None
  else
  match loads env request_param with
  | None =>
      send_json_response 400
        ("Malformed " ++ dq ++ "request" ++ dq ++ " parameter.") None
  | Some request =>
      key <- lift (py_get request "key") ;;
      if negb (truthy key) then
        send_json_response 400
          ("Request missing " ++ dq ++ "key" ++ dq ++ " parameter.") None
      else
      payload_param <- lift (py_get request "payload") ;;
      if negb (truthy payload_param) then
        send_json_response 400
          ("Request missing " ++ dq ++ "payload" ++ dq ++ " parameter.") None
      else
      parsed <- lift (loads_value env payload_param) ;;
      match parsed with
      | None =>
          send_json_response 400
            ("Malformed " ++ dq ++ "payload" ++ dq ++ " parameter.") None
      | Some payload =>
          token_ok <- assert_xsrf_token_or_fail env
                        request (XSRF_ACTION h) (VDict {[ "key" := key ]}) ;;
          if negb token_ok then ret tt else
          if negb (can_edit env) then
            send_json_response 401 "Access denied."
              (Some (VDict {[ "key" := key ]}))
          else
          request_data <- process_put h request payload ;;
          match request_data with
          | None => ret tt
          | Some request_data =>
              let request_data := redacted env payload request_data in
              if truthy (VDict request_data) then
                course_dict <- get_course_dict ;;
                let course_settings :=
                  deep_dict_merge env request_data course_dict in
                course_settings <-
                  postprocess_put h course_settings request ;;
                saved <- save_settings env course_settings ;;
                (if negb saved
                 then send_json_response 412 "Validation error." None
                 else ret tt) ;;
                send_json_response 200 "Saved." None
              else ret tt
          end
      end
  end.

(** [postprocess_put] *)
Definition postprocess_put (course_settings : gmap string value)
    (request : value) : M (gmap string value) :=
  ret course_settings.

(** [delete] *)
Definition delete (h : Handler) (params : gmap string string) : M unit :=
  let key := request_get params "key" in
  token_ok <- assert_xsrf_token_or_fail env
                (params_dict params) (XSRF_ACTION h)
                (VDict {[ "key" := VStr key ]}) ;;
  if negb token_ok then ret tt else
  if negb (can_edit env) || negb (is_deletion_allowed h) then
    send_json_response 401 "Access denied."
      (Some (VDict {[ "key" := VStr key ]}))
  else
  entity <- process_delete h params ;;
  saved <- save_settings env entity ;;
  if saved then send_json_response 200 "Deleted." None else ret tt.

End WithEnv.
End CourseYamlRESTHandler.

(** *** [CourseSettingsRESTHandler] *)

Module CourseSettingsRESTHandler.
Section WithEnv.

Variable env : Env.

Local Open Scope handler_scope.

Definition XSRF_ACTION : string := "basic-course-settings-put".

(** [get_group_id] *)
Definition get_group_id (email : value) : result (option string) :=
  if negb (truthy email) then Ok None else
  rbind (py_contains "@googlegroups.com" email) (λ present,
    if negb present then Ok None else
    match email with
    | VStr s =>
        rbind (str_split s "@") (λ parts,
          match parts with
          | part :: _ => Ok (Some part)
          | [] => Raise IndexError
          end)
    | _ => Raise AttributeError
    end).

(** [get_groups_web_url] and [get_groups_embed_url], which differ in the
    prefix only. *)
Definition get_groups_url (prefix : string) (email : value)
  : result (option string) :=
  rbind (get_group_id email) (λ group_id,
    match group_id with
    | Some g => if truthy (VStr g) then Ok (Some (prefix ++ g)) else Ok None
    | None => Ok None
    end).

Definition get_groups_web_url : value → result (option string) :=
  get_groups_url "https://groups.google.com/group/".

Definition get_groups_embed_url : value → result (option string) :=
  get_groups_url "https://groups.google.com/forum/embed/?place=forum/".

(** [_process_course_data]; returns [course_data] as the call leaves
    it. *)
Definition _process_course_data (course_data : value) : result value :=
  rbind (py_contains "forum_email" course_data) (λ present,
    if negb present then Ok course_data else
    rbind (py_subscript course_data "forum_email") (λ forum_email,
    rbind (get_groups_web_url forum_email) (λ forum_web_url,
    rbind (match forum_web_url with
           | Some url => py_setitem course_data "forum_url" (VStr url)
           | None => Ok course_data
           end) (λ course_data,
    rbind (get_groups_embed_url forum_email) (λ forum_web_url,
      match forum_web_url with
      | Some url => py_setitem course_data "forum_embed_url" (VStr url)
      | None => Ok course_data
      end))))).

(** The loop of [_process_extra_locales]; [existing] is computed once,
    before the loop. *)
Fixpoint extra_locales_loop (existing : list value) (items : list value)
  : M unit :=
  match items with
  | [] => ret tt
  | extra_locale :: rest =>
      locale <- lift (py_subscript extra_locale "locale") ;;
      known <- lift (set_contains locale existing) ;;
      (if known then ret tt else save_label locale) ;;
      extra_locales_loop existing rest
  end.

(** [_process_extra_locales] *)
Definition _process_extra_locales (extra_locales : value) : M unit :=
  existing <- label_titles ;;
  match extra_locales with
  | VList l =>
      extra_locales_loop existing
        (l ++ [VDict {[ "locale" := VStr (default_locale env) ]}])
  | _ => raise TypeError
  end.

(** [process_put] *)
Definition process_put (request payload : value)
  : M (option (gmap string value)) :=
  request_data <- lift (settings_convert_json_to_entity env payload) ;;
  let errors := settings_validate env request_data in
  if negb (bool_decide (errors = [])) then
    send_json_response 400
      ("Invalid data: " ++ nl ++ str_join nl errors) None ;;
    ret None
  else
  (match request_data !! "extra_locales" with
   | Some extra_locales => _process_extra_locales extra_locales
   | None => ret tt
   end) ;;
  match request_data !! "course" with
  | Some course_data =>
      course_data <- lift (_process_course_data course_data) ;;
      ret (Some (<[ "course" := course_data ]> request_data))
  | None => ret (Some request_data)
  end.

(** [is_deletion_allowed] *)
Definition is_deletion_allowed : bool := false.

(** The class has no [process_delete]; calling it would raise. *)
Definition process_delete (params : gmap string string)
  : M (gmap string value) :=
  raise AttributeError.

Definition handler : Handler :=
  {| Rest.XSRF_ACTION := XSRF_ACTION;
     Rest.process_put := process_put;
     Rest.postprocess_put := CourseYamlRESTHandler.postprocess_put;
     Rest.is_deletion_allowed := is_deletion_allowed;
     Rest.process_delete := process_delete |}.

End WithEnv.
End CourseSettingsRESTHandler.

(** *** [HtmlHookRESTHandler] *)

Module HtmlHookRESTHandler.
Section WithEnv.

Variable env : Env.

Local Open Scope handler_scope.

Definition XSRF_ACTION : string := "html-hook-put".

(** [process_put] *)
Definition process_put (request payload : value)
  : M (option (gmap string value)) :=
  request_data <- lift (hook_convert_json_to_entity env payload) ;;
  match request_data !! "hook_content" with
  | None =>
      send_json_response 400
        ("Payload missing " ++ dq ++ "hook_content" ++ dq ++ " parameter.")
        None ;;
      ret None
  | Some hook_content =>
      key <- lift (py_get request "key") ;;
      if negb (truthy key) then
        send_json_response 400
          ("Blank or missing " ++ dq ++ "key" ++ dq ++ " parameter.") None ;;
        ret None
      else
      match key with
      | VStr key =>
          elements <- lift (str_split key (SEPARATOR (hooks env))) ;;
          let course_dict := build elements hook_content in
          ret (Some {[ HTML_HOOKS (hooks env) := course_dict ]})
      | _ => raise AttributeError
      end
  end.

(** [_process_delete_internal]; returns [course_dict], which the loop
    has modified in place. *)
Definition _process_delete_internal (course_dict : value) (key : string)
  : result value :=
  rbind (str_split key (SEPARATOR (hooks env))) (prune_value course_dict).

(** [_process_delete_internal] called on a dict. *)
Definition _process_delete_internal_dict (course_dict : gmap string value)
    (key : string) : result (gmap string value) :=
  rbind (str_split key (SEPARATOR (hooks env))) (λ elements,
    Ok (prune course_dict elements)).

(** [postprocess_put] *)
Definition postprocess_put (course_settings : gmap string value)
    (request : value) : M (gmap string value) :=
  key <- lift (py_get request "key") ;;
  if truthy key then
    match key with
    | VStr key => lift (_process_delete_internal_dict course_settings key)
    | _ => raise AttributeError
    end
  else ret course_settings.

(** [is_deletion_allowed] *)
Definition is_deletion_allowed : bool := true.

(** [process_delete].  The first call works on what [HTML_HOOKS] is
    bound to in [course_dict], or on a fresh empty dict when the key is
    missing; what it deletes there is deleted in [course_dict]. *)
Definition process_delete (params : gmap string string)
  : M (gmap string value) :=
  let key := request_get params "key" in
  course_dict <- CourseYamlRESTHandler.get_course_dict env ;;
  course_dict <-
    match course_dict !! HTML_HOOKS (hooks env) with
    | Some html_hooks =>
        html_hooks <- lift (_process_delete_internal html_hooks key) ;;
        ret (<[ HTML_HOOKS (hooks env) := html_hooks ]> course_dict)
    | None =>
        _ <- lift (_process_delete_internal (VDict ∅) key) ;;
        ret course_dict
    end ;;
  lift (_process_delete_internal_dict course_dict key).

Definition handler : Handler :=
  {| Rest.XSRF_ACTION := XSRF_ACTION;
     Rest.process_put := process_put;
     Rest.postprocess_put := postprocess_put;
     Rest.is_deletion_allowed := is_deletion_allowed;
     Rest.process_delete := process_delete |}.

End WithEnv.
End HtmlHookRESTHandler.

(** The locale of an item of [extra_locales], found among the titles
    [titles]. *)
Definition labelled (titles : list value) (item : value) : Prop :=
  ∃ locale, py_subscript item "locale" = Ok locale
            ∧ set_contains locale titles = Ok true.

(** *** [CourseSettingsHandler] *)

Module CourseSettingsHandler.
Section WithEnv.

Variable env : Env.

Local Open Scope handler_scope.

(** [post_course_availability]; the value returned is the address the
    handler redirects to. *)
Definition post_course_availability (params : gmap string string)
  : M string :=
  settings <- CourseYamlRESTHandler.get_course_dict env ;;
  let availability := String.eqb (request_get params "availability") "True" in
  course <- lift (py_subscript (VDict settings) "course") ;;
  course <- lift (py_setitem course "now_available" (VBool availability)) ;;
  let settings := <[ "course" := course ]> settings in
  _ <- save_settings env settings ;;
  ret "/dashboard".


End WithEnv.
End CourseSettingsHandler.

(** *** Text files shown on the settings page *)

Module TextFiles.

(** What the list built for display holds: [safe_dom] elements with a text,
    and the object given for a missing file. *)
Inductive node : Type :=
  | Element (tag : string) (text : string)
  | Placeholder (content : string).

(** [_text_file_to_safe_dom].  A reader is [None] or an open file; the
    string stands for what [reader.read().decode('utf-8')] gives. *)
Definition _text_file_to_safe_dom (reader : option string)
    (content_if_empty : string) : result (list node) :=
  match reader with
  | Some lines =>
      rbind (str_split lines nl) (λ pieces,
        Ok (map (Element "pre")
              (List.filter (λ line, negb (String.eqb line "")) pieces)))
  | None => Ok [Placeholder content_if_empty]
  end.

(** [_text_file_to_string] *)
Definition _text_file_to_string (reader : option string)
    (content_if_empty : string) : string :=
  match reader with
  | Some lines => lines
  | None => content_if_empty
  end.

(** The text of an element. *)
Definition node_text (n : node) : string :=
  match n with
  | Element _ text => text
  | Placeholder content => content
  end.

End TextFiles.

(** ** A sample environment for the worked examples *)

Module Demo.

Definition demo_hooks : HtmlHooks :=
  {| SEPARATOR := "."; HTML_HOOKS := "html_hooks" |}.

(** A stand-in for the JSON parser: it knows the few texts the examples
    send. *)
Definition demo_loads (s : string) : option value :=
  if String.eqb s "hook-put" then
    Some (VDict {[ "key" := VStr "a.b.c"; "payload" := VStr "hook-payload" ]})
  else if String.eqb s "hook-payload" then
    Some (VDict {[ "hook_content" := VStr "<p>hi</p>" ]})
  else if String.eqb s "hook-put-empty" then
    Some (VDict {[ "key" := VStr "a.b.c"; "payload" := VStr "{}" ]})
  else if String.eqb s "{}" then
    Some (VDict ∅)
  else if String.eqb s "no-payload" then
    Some (VDict {[ "key" := VStr "a.b.c" ]})
  else if String.eqb s "settings-put" then
    Some (VDict {[ "key" := VStr "/course.yaml";
                   "payload" := VStr "settings-payload" ]})
  else if String.eqb s "settings-payload" then
    Some (VDict {[ "course" := VDict {[ "title" := VInt 5 ]} ]})
  else None.

(** A schema check for the examples: the course title must be a string. *)
Definition demo_validate (request_data : gmap string value) : list string :=
  match request_data !! "course" with
  | Some (VDict course) =>
      match course !! "title" with
      | Some (VStr _) | None => []
      | Some _ => ["course:title must be a string"]
      end
  | _ => []
  end.

Definition demo_convert (payload : value) : result (gmap string value) :=
  match payload with
  | VDict d => Ok d
  | _ => Raise AssertionError
  end.

(** The hook registry has the single optional property [hook_content]. *)
Definition demo_hook_convert (payload : value) : result (gmap string value) :=
  match payload with
  | VDict d =>
      Ok (match d !! "hook_content" with
          | Some content => {[ "hook_content" := content ]}
          | None => ∅
          end)
  | _ => Raise AssertionError
  end.

(** The environment, for a caller who may edit or not and whose token is
    valid or not, and a store that accepts what it is asked to save or
    not. *)
Definition demo_env_with (may_edit token_valid accepts : bool) : Env :=
  {| hooks := demo_hooks;
     loads := demo_loads;
     is_editable_fs := true;
     can_edit := may_edit;
     xsrf_token_valid := λ _ _, token_valid;
     xsrf_failure := λ args_dict,
       {| status := 403; message := "Bad XSRF token.";
          payload_dict := Some args_dict |};
     get_environ := λ d, d;
     deep_dict_merge := λ update current, update ∪ current;
     settings_valid := λ _, accepts;
     settings_convert_json_to_entity := demo_convert;
     settings_validate := demo_validate;
     hook_convert_json_to_entity := demo_hook_convert;
     redacted := λ _ request_data, request_data;
     default_locale := "en_US" |}.

Definition demo_env (may_edit token_valid : bool) : Env :=
  demo_env_with may_edit token_valid true.

Definition demo_state (document : gmap string value) : hstate :=
  {| course_yaml := document; labels := []; sent := [] |}.

End Demo.
Import Demo.

(** * Properties *)

(** ** Worked examples *)

Example split_dots : str_split "a.b.c" "." = Ok ["a"; "b"; "c"].
Proof. reflexivity. Qed.

Example split_wide : str_split "a::b::" "::" = Ok ["a"; "b"; ""].
Proof. reflexivity. Qed.

Example split_no_separator : str_split "" ":" = Ok [""].
Proof. reflexivity. Qed.

Example build_abc :
  build ["a"; "b"; "c"] (VStr "<p>hi</p>")
  = VDict {[ "a" := VDict {[ "b" := VDict {[ "c" := VStr "<p>hi</p>" ]} ]} ]}.
Proof. reflexivity. Qed.

Example prune_abc :
  prune {[ "a" := VDict {[ "b" := VDict {[ "c" := VStr "<p>hi</p>" ]} ]} ]}
        ["a"; "b"; "c"]
  = {[ "a" := VDict {[ "b" := VDict ∅ ]} ]}.
Proof. vm_compute. reflexivity. Qed.

(** ** The path builder *)

Section Builder.

Implicit Types (path : list string) (leaf v : value).

Lemma build_snoc path s leaf :
  build (path ++ [s]) leaf = build path (VDict {[ s := leaf ]}).
Proof. unfold build. rewrite rev_app_distr. reflexivity. Qed.

(** The loop of [process_put] builds the right-nested mapping. *)
Lemma build_right_nested path leaf : build path leaf = right_nested path leaf.
Proof.
  revert leaf. induction path as [|s path IH] using rev_ind; intros leaf.
  - reflexivity.
  - rewrite build_snoc, IH. clear IH.
    induction path as [|s' path IH]; simpl; [reflexivity|].
    now rewrite IH.
Qed.

Lemma right_nested_snoc path s leaf :
  right_nested (path ++ [s]) leaf = right_nested path (VDict {[ s := leaf ]}).
Proof. induction path as [|s' path IH]; simpl; [reflexivity|now rewrite IH]. Qed.

Lemma VDict_inj (d1 d2 : gmap string value) : VDict d1 = VDict d2 → d1 = d2.
Proof.
  intros H.
  exact (f_equal (λ v, match v with VDict d => d | _ => d1 end) H).
Qed.

Lemma right_nested_empty_iff path :
  right_nested path (VDict ∅) = VDict ∅ ↔ path = [].
Proof.
  split; [|intros ->; reflexivity].
  destruct path as [|s rest]; [reflexivity|]. simpl. intros H.
  apply VDict_inj in H. exfalso. exact (map_non_empty_singleton _ _ H).
Qed.

End Builder.

(** ** The path pruner *)

Section Pruner.

Implicit Types (d m : gmap string value) (path rest : list string).
Implicit Types (v : value) (k e : string).

Lemma prune_nil d : prune d [] = d.
Proof. reflexivity. Qed.

Lemma prune_descend d e rest nested :
  d !! e = Some (VDict nested) →
  prune d (e :: rest) = <[ e := VDict (prune nested rest) ]> d.
Proof. intros H. simpl. now rewrite H. Qed.

Lemma prune_del d e rest v :
  d !! e = Some v → is_dict v = false →
  prune d (e :: rest) = prune (delete e d) rest.
Proof. intros H Hv. simpl. rewrite H. now destruct v. Qed.

(** A missing element is skipped: the loop goes on with the next element in
    the same dict. *)
Lemma prune_missing d e rest :
  d !! e = None → prune d (e :: rest) = prune d rest.
Proof. intros H. simpl. now rewrite H. Qed.

(** The three cases an element can be in. *)
Lemma lookup_cases d e :
  (∃ nested, d !! e = Some (VDict nested))
  ∨ (∃ v, d !! e = Some v ∧ is_dict v = false)
  ∨ d !! e = None.
Proof.
  destruct (d !! e) as [v|]; [|now right; right].
  destruct v; try (right; left; eexists; split; [reflexivity|reflexivity]).
  left. now eexists.
Qed.

Lemma get_path_nil v : get_path v [] = Some v.
Proof. reflexivity. Qed.

Lemma get_path_cons d k rest :
  get_path (VDict d) (k :: rest) = d !! k ≫= λ v, get_path v rest.
Proof. simpl. now destruct (d !! k). Qed.

Lemma get_path_scalar v path w :
  is_dict v = false → get_path v path = Some w → path = [] ∧ w = v.
Proof.
  intros Hv. destruct path as [|k rest]; simpl.
  - intros [= <-]. now split.
  - destruct v; try discriminate.
Qed.

Lemma keeps_mappings_refl d : keeps_mappings d d.
Proof. intros path m H. eauto. Qed.

Lemma keeps_mappings_trans d1 d2 d3 :
  keeps_mappings d1 d2 → keeps_mappings d2 d3 → keeps_mappings d1 d3.
Proof.
  intros H12 H23 path m H.
  destruct (H12 _ _ H) as [m' H']. exact (H23 _ _ H').
Qed.

Lemma keeps_mappings_insert d k nested nested' :
  d !! k = Some (VDict nested) → keeps_mappings nested nested' →
  keeps_mappings d (<[ k := VDict nested' ]> d).
Proof.
  intros Hk Hn [|k' rest] m; [simpl; eauto|].
  rewrite !get_path_cons.
  destruct (decide (k' = k)) as [->|Hne].
  - rewrite Hk, lookup_insert_eq. simpl. apply Hn.
  - rewrite lookup_insert_ne by congruence. eauto.
Qed.

Lemma keeps_mappings_delete d k v :
  d !! k = Some v → is_dict v = false → keeps_mappings d (delete k d).
Proof.
  intros Hk Hv [|k' rest] m; [simpl; eauto|].
  rewrite !get_path_cons.
  destruct (decide (k' = k)) as [->|Hne].
  - rewrite Hk. simpl. intros H.
    destruct (get_path_scalar _ _ _ Hv H) as [_ E].
    rewrite <- E in Hv. discriminate.
  - rewrite lookup_delete_ne by congruence. eauto.
Qed.

Lemma shrinks_refl d : shrinks d d.
Proof. intros path v' H. exists v'. auto. Qed.

Lemma shrinks_trans d1 d2 d3 : shrinks d1 d2 → shrinks d2 d3 → shrinks d1 d3.
Proof.
  intros H12 H23 path v3 H3.
  destruct (H23 _ _ H3) as (v2 & H2 & Hd2 & He2).
  destruct (H12 _ _ H2) as (v1 & H1 & Hd1 & He1).
  exists v1. split; [assumption|]. split; [congruence|].
  intros Hv1. rewrite (He1 Hv1). apply He2. congruence.
Qed.

Lemma shrinks_insert d k nested nested' :
  d !! k = Some (VDict nested) → shrinks nested nested' →
  shrinks d (<[ k := VDict nested' ]> d).
Proof.
  intros Hk Hn [|k' rest] v'.
  - simpl. intros [= <-]. exists (VDict d). simpl. auto with *.
  - rewrite !get_path_cons.
    destruct (decide (k' = k)) as [->|Hne].
    + rewrite Hk, lookup_insert_eq. simpl. apply Hn.
    + rewrite lookup_insert_ne by congruence. intros H. exists v'. auto.
Qed.

Lemma shrinks_delete d k : shrinks d (delete k d).
Proof.
  intros [|k' rest] v'.
  - simpl. intros [= <-]. exists (VDict d). simpl. auto with *.
  - rewrite !get_path_cons.
    destruct (decide (k' = k)) as [->|Hne].
    + rewrite lookup_delete_eq. discriminate.
    + rewrite lookup_delete_ne by congruence. intros H. exists v'. auto.
Qed.

(** The pruner never removes a key bound to a dict. *)
Lemma prune_keeps_mappings path : ∀ d, keeps_mappings d (prune d path).
Proof.
  induction path as [|e rest IH]; intros d; [apply keeps_mappings_refl|].
  destruct (lookup_cases d e) as [[nested H]|[(v & H & Hv)|H]].
  - rewrite (prune_descend _ _ _ _ H).
    eapply keeps_mappings_insert; [exact H|apply IH].
  - rewrite (prune_del _ _ _ _ H Hv).
    eapply keeps_mappings_trans; [exact (keeps_mappings_delete _ _ _ H Hv)|].
    apply IH.
  - rewrite (prune_missing _ _ _ H). apply IH.
Qed.

(** The pruner adds nothing and alters no leaf. *)
Lemma prune_shrinks path : ∀ d, shrinks d (prune d path).
Proof.
  induction path as [|e rest IH]; intros d; [apply shrinks_refl|].
  destruct (lookup_cases d e) as [[nested H]|[(v & H & Hv)|H]].
  - rewrite (prune_descend _ _ _ _ H).
    eapply shrinks_insert; [exact H|apply IH].
  - rewrite (prune_del _ _ _ _ H Hv).
    eapply shrinks_trans; [apply shrinks_delete|apply IH].
  - rewrite (prune_missing _ _ _ H). apply IH.
Qed.

(** A leaf the key path leads to is gone after pruning that path. *)
Lemma prune_removes_leaf path : ∀ d v,
  get_path (VDict d) path = Some v → is_dict v = false →
  get_path (VDict (prune d path)) path = None.
Proof.
  induction path as [|e rest IH]; intros d v.
  - simpl. intros [= <-]. discriminate.
  - rewrite get_path_cons. intros Hget Hv.
    destruct (d !! e) as [w|] eqn:He; [|discriminate]. simpl in Hget.
    destruct (is_dict w) eqn:Hw.
    + destruct w; try discriminate.
      rewrite (prune_descend _ _ _ _ He), get_path_cons, lookup_insert_eq.
      simpl. exact (IH _ _ Hget Hv).
    + destruct (get_path_scalar _ _ _ Hw Hget) as [-> _].
      rewrite (prune_del _ _ _ _ He Hw). simpl.
      now rewrite lookup_delete_eq.
Qed.

(** The loop with its pointer computes [prune]. *)
Lemma put_at_id cursor : ∀ root d, dict_at root cursor = Some d →
  put_at root cursor d = root.
Proof.
  induction cursor as [|k cursor IH]; intros root d; simpl.
  - now intros [= ->].
  - destruct (root !! k) as [[| | | | |nested]|] eqn:E; try discriminate.
    intros H. rewrite (IH _ _ H). now apply insert_id.
Qed.

Lemma dict_at_put_at cursor : ∀ root d d', dict_at root cursor = Some d →
  dict_at (put_at root cursor d') cursor = Some d'.
Proof.
  induction cursor as [|k cursor IH]; intros root d d'; simpl.
  - reflexivity.
  - destruct (root !! k) as [[| | | | |nested]|] eqn:E; try discriminate.
    intros H. rewrite lookup_insert_eq. exact (IH _ _ _ H).
Qed.

Lemma put_at_put_at cursor : ∀ root d d1 d2, dict_at root cursor = Some d →
  put_at (put_at root cursor d1) cursor d2 = put_at root cursor d2.
Proof.
  induction cursor as [|k cursor IH]; intros root d d1 d2; simpl.
  - reflexivity.
  - destruct (root !! k) as [[| | | | |nested]|] eqn:E; try discriminate.
    intros H. rewrite lookup_insert_eq, (IH _ _ _ _ H).
    apply insert_insert_eq.
Qed.

Lemma dict_at_snoc cursor : ∀ root d e nested,
  dict_at root cursor = Some d → d !! e = Some (VDict nested) →
  dict_at root (cursor ++ [e]) = Some nested.
Proof.
  induction cursor as [|k cursor IH]; intros root d e nested; simpl.
  - intros [= ->] ->. reflexivity.
  - destruct (root !! k) as [[| | | | |n]|] eqn:E; try discriminate.
    apply IH.
Qed.

Lemma put_at_snoc cursor : ∀ root d e nested d',
  dict_at root cursor = Some d → d !! e = Some (VDict nested) →
  put_at root (cursor ++ [e]) d' = put_at root cursor (<[ e := VDict d' ]> d).
Proof.
  induction cursor as [|k cursor IH]; intros root d e nested d'; simpl.
  - intros [= ->] ->. reflexivity.
  - destruct (root !! k) as [[| | | | |n]|] eqn:E; try discriminate.
    intros H He. now rewrite (IH _ _ _ _ _ H He).
Qed.

Lemma prune_loop_from elements : ∀ root cursor d,
  dict_at root cursor = Some d →
  fst (fold_left prune_step elements (root, cursor))
  = put_at root cursor (prune d elements).
Proof.
  induction elements as [|e rest IH]; intros root cursor d Hd.
  - simpl. symmetry. now apply put_at_id.
  - cbn [fold_left]. unfold prune_step at 2. rewrite Hd.
    destruct (lookup_cases d e) as [[nested H]|[(v & H & Hv)|H]].
    + rewrite H, (prune_descend _ _ _ _ H).
      rewrite (IH _ _ _ (dict_at_snoc _ _ _ _ _ Hd H)).
      exact (put_at_snoc _ _ _ _ _ _ Hd H).
    + rewrite (prune_del _ _ _ _ H Hv), H.
      assert (Hstep : match v with
                      | VDict _ => (root, (cursor ++ [e])%list)
                      | _ => (put_at root cursor (delete e d), cursor)
                      end = (put_at root cursor (delete e d), cursor))
        by (destruct v; try reflexivity; discriminate).
      rewrite Hstep.
      rewrite (IH _ _ _ (dict_at_put_at _ _ _ (delete e d) Hd)).
      exact (put_at_put_at _ _ _ _ _ Hd).
    + rewrite H, (prune_missing _ _ _ H). exact (IH _ _ _ Hd).
Qed.

Lemma prune_loop_prune (course_dict : gmap string value) elements :
  prune_loop course_dict elements = prune course_dict elements.
Proof. exact (prune_loop_from elements course_dict [] course_dict eq_refl). Qed.

(** The pruner of the specification removes at most one key. *)
Lemma prune_stopping_removes_at_most_one path : ∀ d Q1 Q2,
  removed d (prune_stopping d path) Q1 →
  removed d (prune_stopping d path) Q2 → Q1 = Q2.
Proof.
  assert (Hcons : ∀ d d' k Q, d' !! k = d !! k →
            ¬ removed d d' (k :: Q)).
  { intros d d' k Q E [[v Hv] Hnone]. rewrite get_path_cons in Hv, Hnone.
    rewrite E in Hnone. congruence. }
  assert (Hnil : ∀ d d', ¬ removed d d' []).
  { intros d d' [_ H]. discriminate. }
  induction path as [|e rest IH]; intros d Q1 Q2.
  - intros H. destruct Q1; [destruct (Hnil _ _ H)|].
    now destruct (Hcons _ _ _ _ eq_refl H).
  - simpl. destruct (lookup_cases d e) as [[nested H]|[(v & H & Hv)|H]].
    + rewrite H. intros H1 H2.
      assert (Hin : ∀ Q, removed d
                (<[ e := VDict (prune_stopping nested rest) ]> d) Q →
                ∃ Q', Q = e :: Q'
                      ∧ removed nested (prune_stopping nested rest) Q').
      { intros [|k Q'] HQ; [destruct (Hnil _ _ HQ)|].
        destruct (decide (k = e)) as [->|Hne].
        - exists Q'. split; [reflexivity|].
          destruct HQ as [Hb Ha].
          rewrite get_path_cons, H in Hb.
          rewrite get_path_cons, lookup_insert_eq in Ha. now split.
        - destruct (Hcons _ _ _ _ (lookup_insert_ne _ _ _ _ (not_eq_sym Hne))
                      HQ). }
      destruct (Hin _ H1) as (Q1' & -> & H1').
      destruct (Hin _ H2) as (Q2' & -> & H2').
      f_equal. exact (IH _ _ _ H1' H2').
    + rewrite H.
      assert (Hin : ∀ Q, removed d (delete e d) Q → Q = [e]).
      { intros [|k Q'] HQ; [destruct (Hnil _ _ HQ)|].
        destruct (decide (k = e)) as [->|Hne].
        - destruct HQ as [[w Hw] _]. rewrite get_path_cons, H in Hw.
          simpl in Hw. now destruct (get_path_scalar _ _ _ Hv Hw) as [-> _].
        - destruct (Hcons _ _ _ _ (lookup_delete_ne _ _ _ (not_eq_sym Hne))
                      HQ). }
      intros H1 H2.
      assert (E : (match v with VDict nested =>
                     <[ e := VDict (prune_stopping nested rest) ]> d
                   | _ => delete e d end) = delete e d)
        by (destruct v; try reflexivity; discriminate).
      rewrite E in H1, H2. now rewrite (Hin _ H1), (Hin _ H2).
    + rewrite H. intros H1.
      destruct Q1; [destruct (Hnil _ _ H1)|].
      now destruct (Hcons _ _ _ _ eq_refl H1).
Qed.

(** A path that runs through dicts only is left alone. *)
Lemma prune_resolved path : ∀ d,
  resolves_to_mappings d path = true → prune d path = d.
Proof.
  induction path as [|e rest IH]; intros d; [reflexivity|].
  simpl. destruct (d !! e) as [[| | | | |nested]|] eqn:He; try discriminate.
  intros H. rewrite (IH _ H). now apply insert_id.
Qed.

(** The source's loop and the pruner of the specification agree on the
    paths whose last element is the first one that is missing or bound to
    something else than a dict. *)
Lemma prune_stopping_agrees path : ∀ d,
  ends_at_last d path = true → prune d path = prune_stopping d path.
Proof.
  induction path as [|e rest IH]; intros d; [reflexivity|].
  simpl. destruct (d !! e) as [[| | | | |nested]|] eqn:He;
    try (destruct rest; [reflexivity|discriminate]).
  intros H. now rewrite (IH _ H).
Qed.

End Pruner.

(** ** Build, then prune *)

(** C1, as the specification has it, fails on its own example: building the
    path of the key "a.b.c" and pruning it again leaves the two enclosing
    mappings behind; only the leaf is removed. *)
Lemma build_then_prune_abc_not_empty :
  prune_value (build ["a"; "b"; "c"] (VStr "<p>hi</p>")) ["a"; "b"; "c"]
  = Ok (VDict {[ "a" := VDict {[ "b" := VDict ∅ ]} ]})
  ∧ prune_value (build ["a"; "b"; "c"] (VStr "<p>hi</p>")) ["a"; "b"; "c"]
    ≠ Ok (VDict ∅).
Proof.
  assert (E : prune_value (build ["a"; "b"; "c"] (VStr "<p>hi</p>"))
                ["a"; "b"; "c"]
              = Ok (VDict {[ "a" := VDict {[ "b" := VDict ∅ ]} ]})).
  { vm_compute. reflexivity. }
  split; [exact E|]. rewrite E. intros H.
  assert (H' : VDict {[ "a" := VDict {[ "b" := VDict ∅ ]} ]} = VDict ∅).
  { exact (f_equal (λ r, match r with Ok v => v | Raise _ => VNone end) H). }
  apply VDict_inj in H'. exact (map_non_empty_singleton _ _ H').
Qed.

Lemma prune_right_nested (pre : list string) (s : string) (V : value) :
  is_dict V = false →
  prune_value (right_nested (pre ++ [s]) V) (pre ++ [s])
  = Ok (right_nested pre (VDict ∅)).
Proof.
  intros HV. induction pre as [|p pre IH].
  - simpl. rewrite lookup_singleton_eq.
    destruct V; try discriminate; simpl; now rewrite delete_singleton_eq.
  - simpl. rewrite lookup_singleton_eq.
    destruct (right_nested (pre ++ [s]) V) as [| | | | |nested] eqn:E.
    1-5: destruct pre; discriminate.
    simpl in IH. injection IH as IH.
    rewrite insert_singleton_eq. simpl. now rewrite IH.
Qed.

(** C1 (amended).  Building the nested mapping for a non-empty key path
    [pre ++ [s]] with a leaf that is not itself a mapping, and pruning the
    same path again, removes the leaf binding only: what is left is the
    chain of mappings for [pre], the innermost one empty.  It is the empty
    document exactly when the path has a single segment. *)
Theorem build_then_prune (pre : list string) (s : string) (V : value) :
  is_dict V = false →
  prune_value (build (pre ++ [s]) V) (pre ++ [s])
  = Ok (right_nested pre (VDict ∅))
  ∧ (right_nested pre (VDict ∅) = VDict ∅ ↔ pre = []).
Proof.
  intros HV. split.
  - rewrite build_right_nested. now apply prune_right_nested.
  - apply right_nested_empty_iff.
Qed.

Lemma build_then_prune_witness :
  is_dict (VStr "<p>hi</p>") = false
  ∧ prune_value (build (["a"; "b"] ++ ["c"]) (VStr "<p>hi</p>"))
                (["a"; "b"] ++ ["c"])
    = Ok (right_nested ["a"; "b"] (VDict ∅)).
Proof.
  split; [reflexivity|].
  apply (build_then_prune ["a"; "b"] "c" (VStr "<p>hi</p>")). reflexivity.
Defined.

(** ** What one call of the pruner removes *)

(** C8.  When every segment of the key path, the last one included, is
    bound to a nested mapping, the pruner leaves the whole document as it
    is: every binding at every level is kept. *)
Theorem prune_all_mappings_unchanged (D : gmap string value)
    (P : list string) :
  resolves_to_mappings D P = true → prune D P = D.
Proof. apply prune_resolved. Qed.

Lemma prune_all_mappings_unchanged_witness :
  prune {[ "a" := VDict {[ "b" := VDict {[ "c" := VStr "x" ]};
                           "z" := VStr "sibling" ]} ]} ["a"; "b"]
  = {[ "a" := VDict {[ "b" := VDict {[ "c" := VStr "x" ]};
                       "z" := VStr "sibling" ]} ]}.
Proof.
  apply (prune_all_mappings_unchanged
           {[ "a" := VDict {[ "b" := VDict {[ "c" := VStr "x" ]};
                              "z" := VStr "sibling" ]} ]} ["a"; "b"]).
  vm_compute. reflexivity.
Defined.

(** C4.  The pruner never deletes a key bound to a nested mapping: a key
    path that leads to a mapping before the call leads to a mapping after
    it; a key path that no longer leads anywhere after the call led to a
    value that is not a mapping; and the call adds nothing and alters no
    leaf, so that a mapping only ever loses leaf bindings. *)
Theorem prune_never_removes_a_mapping (D : gmap string value)
    (P : list string) :
  keeps_mappings D (prune D P)
  ∧ (∀ Q v, get_path (VDict D) Q = Some v →
            get_path (VDict (prune D P)) Q = None → is_dict v = false)
  ∧ shrinks D (prune D P).
Proof.
  split; [apply prune_keeps_mappings|]. split; [|apply prune_shrinks].
  intros Q v Hbefore Hafter.
  destruct v; try reflexivity.
  destruct (prune_keeps_mappings P D Q _ Hbefore) as [m' Hm'].
  congruence.
Qed.

(** C2 (the source at a failing input).  With the document
    [{"a": "x", "b": "y"}] and the key path [a, b] one call removes two
    keys: after deleting [a] the loop goes on and deletes [b] from the same
    mapping.  The pruner that stops after a deletion would have kept
    [b]. *)
Theorem prune_removes_two_keys :
  let D : gmap string value := {[ "a" := VStr "x"; "b" := VStr "y" ]} in
  prune D ["a"; "b"] = ∅
  ∧ prune_loop D ["a"; "b"] = ∅
  ∧ removed D (prune D ["a"; "b"]) ["a"]
  ∧ removed D (prune D ["a"; "b"]) ["b"]
  ∧ prune_stopping D ["a"; "b"] = {[ "b" := VStr "y" ]}.
Proof.
  intros D.
  assert (E : prune D ["a"; "b"] = ∅) by (vm_compute; reflexivity).
  split; [exact E|]. split; [vm_compute; reflexivity|].
  rewrite E. unfold removed.
  repeat split; try (vm_compute; eauto; fail).
Qed.

(** C3 (the source at a failing input).  With the document [{"b": "y"}]
    and the key "a.b" the first segment is missing, yet the traversal goes
    on and deletes [b] from the top level.  The pruner that stops at a
    missing segment would have left the document as it is. *)
Theorem prune_goes_on_after_missing_segment :
  let D : gmap string value := {[ "b" := VStr "y" ]} in
  D !! "a" = None
  ∧ prune D ["a"; "b"] = ∅
  ∧ prune_loop D ["a"; "b"] = ∅
  ∧ HtmlHookRESTHandler._process_delete_internal
      (demo_env true true) (VDict D) "a.b" = Ok (VDict ∅)
  ∧ prune_stopping D ["a"; "b"] = D.
Proof.
  intros D. repeat split; vm_compute; reflexivity.
Qed.


(** ** The hook handler *)

Section Hook.

Variable env : Env.

Lemma truthy_VStr (s : string) : s ≠ "" → truthy (VStr s) = true.
Proof.
  intros H. simpl. apply negb_true_iff. now apply String.eqb_neq.
Qed.

(** The two renderings of [_process_delete_internal] agree on dicts. *)
Lemma _process_delete_internal_on_dict (d : gmap string value) (key : string) :
  HtmlHookRESTHandler._process_delete_internal env (VDict d) key
  = rbind (HtmlHookRESTHandler._process_delete_internal_dict env d key)
          (λ d', Ok (VDict d')).
Proof.
  unfold HtmlHookRESTHandler._process_delete_internal,
    HtmlHookRESTHandler._process_delete_internal_dict.
  now destruct (str_split key (SEPARATOR (hooks env))).
Qed.

(** [process_delete] in terms of the loop [prune], when [html_hooks] is
    missing from the settings or bound to a dict. *)
Lemma process_delete_eq (params : gmap string string) (st : hstate)
    (P : list string) :
  let D := get_environ env (course_yaml st) in
  str_split (request_get params "key") (SEPARATOR (hooks env)) = Ok P →
  (∀ v, D !! HTML_HOOKS (hooks env) = Some v → is_dict v = true) →
  HtmlHookRESTHandler.process_delete env params st
  = (Ok (prune (match D !! HTML_HOOKS (hooks env) with
                | Some (VDict h) =>
                    <[ HTML_HOOKS (hooks env) := VDict (prune h P) ]> D
                | _ => D
                end) P), st).
Proof.
  intros D HP Hdict.
  unfold HtmlHookRESTHandler.process_delete, bind, lift, ret,
    CourseYamlRESTHandler.get_course_dict,
    HtmlHookRESTHandler._process_delete_internal,
    HtmlHookRESTHandler._process_delete_internal_dict.
  fold D. rewrite HP. simpl.
  destruct (D !! HTML_HOOKS (hooks env)) as [v|] eqn:E; [|reflexivity].
  specialize (Hdict v eq_refl). destruct v; try discriminate. reflexivity.
Qed.

End Hook.

(** C5.  For a non-empty hook key that splits on the separator into
    [segments] and a hook content [V], the hook handler's [process_put]
    returns the right-nested mapping of the segments around [V], placed
    under the reserved key [HTML_HOOKS], and writes no response. *)
Theorem process_put_builds_nested_path (env : Env)
    (req request_data : gmap string value) (payload V : value)
    (key : string) (segments : list string) (st : hstate) :
  req !! "key" = Some (VStr key) →
  key ≠ "" →
  hook_convert_json_to_entity env payload = Ok request_data →
  request_data !! "hook_content" = Some V →
  str_split key (SEPARATOR (hooks env)) = Ok segments →
  HtmlHookRESTHandler.process_put env (VDict req) payload st
  = (Ok (Some {[ HTML_HOOKS (hooks env) := right_nested segments V ]}), st).
Proof.
  intros Hkey Hne Hconv Hcontent Hsplit.
  unfold HtmlHookRESTHandler.process_put, bind, lift, ret.
  rewrite Hconv, Hcontent. simpl. unfold dict_get. rewrite Hkey. simpl.
  apply String.eqb_neq in Hne. rewrite Hne. simpl.
  rewrite Hsplit. now rewrite build_right_nested.
Qed.

Lemma process_put_builds_nested_path_witness :
  HtmlHookRESTHandler.process_put (demo_env true true)
    (VDict {[ "key" := VStr "a.b.c"; "payload" := VStr "hook-payload" ]})
    (VDict {[ "hook_content" := VStr "<p>hi</p>" ]}) (demo_state ∅)
  = (Ok (Some {[ "html_hooks" :=
                   right_nested ["a"; "b"; "c"] (VStr "<p>hi</p>") ]}),
     demo_state ∅).
Proof.
  apply (process_put_builds_nested_path (demo_env true true)
           {[ "key" := VStr "a.b.c"; "payload" := VStr "hook-payload" ]}
           {[ "hook_content" := VStr "<p>hi</p>" ]}
           (VDict {[ "hook_content" := VStr "<p>hi</p>" ]})
           (VStr "<p>hi</p>") "a.b.c" ["a"; "b"; "c"] (demo_state ∅)).
  - vm_compute. reflexivity.
  - discriminate.
  - vm_compute. reflexivity.
  - vm_compute. reflexivity.
  - reflexivity.
Defined.

(** C10.  A hook DELETE runs the path pruner twice on the settings
    document: inside the mapping bound to the reserved key [HTML_HOOKS]
    and then from the top level.  A leaf the key path leads to from the
    top level is gone from the returned document, and so is the leaf it
    leads to under the reserved key.  ([html_hooks] is missing or bound to
    a mapping.) *)
Theorem process_delete_prunes_twice (env : Env) (params : gmap string string)
    (st : hstate) (P : list string) :
  let D := get_environ env (course_yaml st) in
  let HOOKS := HTML_HOOKS (hooks env) in
  str_split (request_get params "key") (SEPARATOR (hooks env)) = Ok P →
  (∀ v, D !! HOOKS = Some v → is_dict v = true) →
  ∃ D' : gmap string value,
    HtmlHookRESTHandler.process_delete env params st = (Ok D', st)
    ∧ D' = prune (match D !! HOOKS with
                  | Some (VDict h) => <[ HOOKS := VDict (prune h P) ]> D
                  | _ => D
                  end) P
    ∧ (∀ v, get_path (VDict D) P = Some v → is_dict v = false →
            get_path (VDict D') P = None)
    ∧ (∀ v, get_path (VDict D) (HOOKS :: P) = Some v → is_dict v = false →
            get_path (VDict D') (HOOKS :: P) = None).
Proof.
  intros D HOOKS HP Hdict.
  eexists. split; [exact (process_delete_eq env params st P HP Hdict)|].
  split; [reflexivity|].
  fold D HOOKS.
  set (D1 := match D !! HOOKS with
             | Some (VDict h) => <[ HOOKS := VDict (prune h P) ]> D
             | _ => D
             end).
  assert (Hshrink1 : shrinks D D1).
  { subst D1. destruct (D !! HOOKS) as [[| | | | |h]|] eqn:E;
      try apply shrinks_refl.
    eapply shrinks_insert; [exact E|apply prune_shrinks]. }
  assert (Hgone : ∀ d d' Q, shrinks d d' →
            get_path (VDict d) Q = None → get_path (VDict d') Q = None).
  { intros d d' Q Hs Hnone.
    destruct (get_path (VDict d') Q) as [v'|] eqn:E; [|reflexivity].
    destruct (Hs _ _ E) as (v & Hv & _). congruence. }
  split.
  - intros v Hget Hv.
    destruct (get_path (VDict D1) P) as [v1|] eqn:E1.
    + destruct (Hshrink1 _ _ E1) as (v0 & Hv0 & Hd & _).
      rewrite Hget in Hv0. injection Hv0 as <-.
      apply (prune_removes_leaf P D1 v1 E1). congruence.
    + exact (Hgone _ _ _ (prune_shrinks P D1) E1).
  - intros v Hget Hv.
    apply (Hgone _ _ _ (prune_shrinks P D1)).
    rewrite get_path_cons in Hget. rewrite get_path_cons. subst D1.
    destruct (D !! HOOKS) as [w|] eqn:E; [|discriminate]. simpl in Hget.
    specialize (Hdict w eq_refl). destruct w; try discriminate.
    rewrite lookup_insert_eq. simpl.
    exact (prune_removes_leaf P _ v Hget Hv).
Qed.

Lemma process_delete_prunes_twice_witness :
  let doc : gmap string value :=
    {[ "html_hooks" := VDict {[ "a" := VDict {[ "b" := VStr "new" ]} ]};
       "a" := VDict {[ "b" := VStr "legacy" ]} ]} in
  ∃ D' : gmap string value,
    HtmlHookRESTHandler.process_delete (demo_env true true)
      {[ "key" := "a.b" ]} (demo_state doc) = (Ok D', demo_state doc)
    ∧ get_path (VDict D') ["a"; "b"] = None
    ∧ get_path (VDict D') ["html_hooks"; "a"; "b"] = None.
Proof.
  intros doc.
  assert (Hsplit : str_split (request_get {[ "key" := "a.b" ]} "key")
                     (SEPARATOR (hooks (demo_env true true)))
                   = Ok ["a"; "b"]) by reflexivity.
  assert (Hdict : ∀ v,
            get_environ (demo_env true true) (course_yaml (demo_state doc))
              !! HTML_HOOKS (hooks (demo_env true true)) = Some v →
            is_dict v = true).
  { intros v Hv.
    assert (E : get_environ (demo_env true true)
                  (course_yaml (demo_state doc))
                  !! HTML_HOOKS (hooks (demo_env true true))
                = Some (VDict {[ "a" := VDict {[ "b" := VStr "new" ]} ]}))
      by (vm_compute; reflexivity).
    rewrite E in Hv.
    exact (eq_sym (f_equal (λ o, match o with
                                 | Some w => is_dict w
                                 | None => true
                                 end) Hv)). }
  destruct (process_delete_prunes_twice (demo_env true true)
              {[ "key" := "a.b" ]} (demo_state doc) ["a"; "b"] Hsplit Hdict)
    as (D' & Hrun & _ & Htop & Hhooks).
  exists D'. split; [exact Hrun|]. split.
  - apply (Htop (VStr "legacy")); vm_compute; reflexivity.
  - apply (Hhooks (VStr "new")); vm_compute; reflexivity.
Defined.

(** When [html_hooks] is bound to a scalar the first call raises and the
    handler gets no further. *)
Example process_delete_scalar_hooks :
  fst (HtmlHookRESTHandler.process_delete (demo_env true true)
         {[ "key" := "a" ]}
         (demo_state {[ "html_hooks" := VNone; "a" := VStr "legacy" ]}))
  = Raise TypeError.
Proof. vm_compute. reflexivity. Qed.

(** A hook PUT into the empty document followed by a DELETE of the same
    key, through the verbs: the enclosing mappings stay. *)
Example put_then_delete_abc :
  let env := demo_env true true in
  let after_put :=
    snd (CourseYamlRESTHandler.put env (HtmlHookRESTHandler.handler env)
           {[ "request" := "hook-put" ]} (demo_state ∅)) in
  course_yaml after_put
  = {[ "html_hooks" :=
         VDict {[ "a" := VDict {[ "b" :=
                    VDict {[ "c" := VStr "<p>hi</p>" ]} ]} ]} ]}
  ∧ course_yaml
      (snd (CourseYamlRESTHandler.delete env (HtmlHookRESTHandler.handler env)
              {[ "key" := "a.b.c" ]} after_put))
    = {[ "html_hooks" := VDict {[ "a" := VDict {[ "b" := VDict ∅ ]} ]} ]}.
Proof. split; vm_compute; reflexivity. Qed.

(** ** The verbs *)

Section Verbs.

Variable env : Env.

Implicit Types (params : gmap string string) (req : gmap string value).
Implicit Types (st : hstate) (h : Handler).

Lemma course_yaml_respond st r : course_yaml (respond st r) = course_yaml st.
Proof. reflexivity. Qed.

Lemma answered_course_yaml st st' code :
  answered st st' code → course_yaml st' = course_yaml st.
Proof. intros (r & -> & _). reflexivity. Qed.

Lemma answered_sent st st' code :
  answered st st' code → ∃ r, sent st' = (sent st ++ [r])%list ∧ status r = code.
Proof. intros (r & -> & Hr). exists r. now split. Qed.

(** [put] asserts an editable file system before anything else: on a
    read-only course every PUT raises, with no response and no change. *)
Lemma put_read_only h params st :
  is_editable_fs env = false →
  CourseYamlRESTHandler.put env h params st = (Raise AssertionError, st).
Proof.
  intros Hfs. unfold CourseYamlRESTHandler.put, bind, raise.
  now rewrite Hfs.
Qed.

(** A PUT whose parsed request object has no [payload] field is answered
    400, whatever the handler class: none of its methods is reached. *)
Lemma put_without_payload h params req st :
  is_editable_fs env = true →
  request_get params "request" ≠ "" →
  loads env (request_get params "request") = Some (VDict req) →
  req !! "payload" = None →
  ∃ st', CourseYamlRESTHandler.put env h params st = (Ok tt, st')
         ∧ answered st st' 400.
Proof.
  intros Hfs Hne Hloads Hpayload.
  unfold CourseYamlRESTHandler.put, bind, ret, lift.
  rewrite Hfs, (truthy_VStr _ Hne), Hloads. simpl.
  destruct (truthy (dict_get req "key")); simpl.
  - unfold dict_get at 1. rewrite Hpayload. simpl.
    eexists. split; [reflexivity|]. eexists. split; reflexivity.
  - eexists. split; [reflexivity|]. eexists. split; reflexivity.
Qed.

(** The steps of [put] up to the call of [process_put], for a request that
    passes every check. *)
Lemma put_reaches_process_put h params req key p payload st :
  is_editable_fs env = true →
  request_get params "request" ≠ "" →
  loads env (request_get params "request") = Some (VDict req) →
  req !! "key" = Some key → truthy key = true →
  req !! "payload" = Some (VStr p) → p ≠ "" →
  loads env p = Some payload →
  xsrf_token_valid env (VDict req) (Rest.XSRF_ACTION h) = true →
  can_edit env = true →
  CourseYamlRESTHandler.put env h params st
  = match Rest.process_put h (VDict req) payload st with
    | (Ok None, st') => (Ok tt, st')
    | (Ok (Some request_data), st') =>
        let request_data := redacted env payload request_data in
        if truthy (VDict request_data) then
          let course_settings :=
            deep_dict_merge env request_data
              (get_environ env (course_yaml st')) in
          match Rest.postprocess_put h course_settings (VDict req) st' with
          | (Ok course_settings, st'') =>
              if settings_valid env course_settings then
                (Ok tt,
                 respond {| course_yaml := course_settings;
                            labels := labels st'';
                            sent := sent st'' |}
                   {| status := 200; message := "Saved.";
                      payload_dict := None |})
              else
                (Ok tt,
                 respond (respond st''
                   {| status := 412; message := "Validation error.";
                      payload_dict := None |})
                   {| status := 200; message := "Saved.";
                      payload_dict := None |})
          | (Raise e, st'') => (Raise e, st'')
          end
        else (Ok tt, st')
    | (Raise e, st') => (Raise e, st')
    end.
Proof.
  intros Hfs Hne Hloads Hkey Hkt Hpayload Hpne Hp Htoken Hedit.
  unfold CourseYamlRESTHandler.put, bind, ret, lift.
  rewrite Hfs, (truthy_VStr _ Hne), Hloads. simpl.
  unfold dict_get. rewrite Hkey, Hpayload. simpl. rewrite Hkt. simpl.
  apply String.eqb_neq in Hpne. rewrite Hpne. simpl. rewrite Hp.
  unfold assert_xsrf_token_or_fail. rewrite Htoken. unfold ret. simpl.
  rewrite Hedit. simpl.
  destruct (Rest.process_put h (VDict req) payload st)
    as [[[request_data|]|e] st']; try reflexivity.
  destruct (negb (bool_decide (redacted env payload request_data = ∅)));
    [|reflexivity].
  unfold CourseYamlRESTHandler.get_course_dict.
  destruct (Rest.postprocess_put h _ (VDict req) st')
    as [[course_settings|e] st'']; [|reflexivity].
  unfold save_settings.
  destruct (settings_valid env course_settings); reflexivity.
Qed.

End Verbs.

(** A hook DELETE from a caller with a valid token and the right to edit
    saves what [process_delete] returns and answers 200. *)
Lemma hook_delete_saves (env : Env) (params : gmap string string)
    (st : hstate) (D' : gmap string value) :
  xsrf_token_valid env (params_dict params) HtmlHookRESTHandler.XSRF_ACTION
  = true →
  can_edit env = true →
  HtmlHookRESTHandler.process_delete env params st = (Ok D', st) →
  settings_valid env D' = true →
  CourseYamlRESTHandler.delete env (HtmlHookRESTHandler.handler env) params st
  = (Ok tt,
     respond {| course_yaml := D'; labels := labels st; sent := sent st |}
       {| status := 200; message := "Deleted."; payload_dict := None |}).
Proof.
  intros Htoken Hedit Hrun Hvalid.
  unfold CourseYamlRESTHandler.delete, bind, ret, assert_xsrf_token_or_fail.
  simpl. rewrite Htoken, Hedit. simpl. rewrite Hrun.
  unfold save_settings. rewrite Hvalid. reflexivity.
Qed.

(** *** PUT with a missing field *)

(** C6, as stated, fails for the hook handler: a hook PUT whose payload has
    no [hook_content], sent by a caller who may not edit, is answered 401,
    not 400.  The permission check comes before [process_put]. *)
Lemma hook_put_without_content_denied :
  loads (demo_env false true) "hook-put-empty"
  = Some (VDict {[ "key" := VStr "a.b.c"; "payload" := VStr "{}" ]})
  ∧ loads (demo_env false true) "{}" = Some (VDict ∅)
  ∧ hook_convert_json_to_entity (demo_env false true) (VDict ∅) = Ok ∅
  ∧ CourseYamlRESTHandler.put (demo_env false true)
      (HtmlHookRESTHandler.handler (demo_env false true))
      {[ "request" := "hook-put-empty" ]} (demo_state ∅)
    = (Ok tt,
       respond (demo_state ∅)
         {| status := 401; message := "Access denied.";
            payload_dict := Some (VDict {[ "key" := VStr "a.b.c" ]}) |})
  ∧ ¬ answered (demo_state ∅)
        (snd (CourseYamlRESTHandler.put (demo_env false true)
                (HtmlHookRESTHandler.handler (demo_env false true))
                {[ "request" := "hook-put-empty" ]} (demo_state ∅)))
        400.
Proof.
  assert (E : CourseYamlRESTHandler.put (demo_env false true)
                (HtmlHookRESTHandler.handler (demo_env false true))
                {[ "request" := "hook-put-empty" ]} (demo_state ∅)
              = (Ok tt,
                 respond (demo_state ∅)
                   {| status := 401; message := "Access denied.";
                      payload_dict :=
                        Some (VDict {[ "key" := VStr "a.b.c" ]}) |})).
  { vm_compute. reflexivity. }
  repeat split; try (vm_compute; reflexivity); try exact E.
  rewrite E. simpl. intros (r & Hr & Hstatus).
  apply (f_equal sent) in Hr. simpl in Hr.
  injection Hr as Hr. rewrite <- Hr in Hstatus. discriminate.
Qed.

(** C6 (amended).  On a course whose file system is editable, which [put]
    asserts first: a PUT whose parsed request object has no [payload]
    field is answered by one response, with status 400, before any method
    of the handler class runs; a hook PUT that passes the key, payload,
    token and permission checks and whose payload, once converted, has no
    [hook_content] is answered by one response, with status 400.  In both
    cases nothing is merged or saved: the state differs by that response
    only. *)
Theorem put_missing_field_answers_400 (env : Env)
    (params : gmap string string) (req : gmap string value) (st : hstate) :
  is_editable_fs env = true →
  request_get params "request" ≠ "" →
  loads env (request_get params "request") = Some (VDict req) →
  (req !! "payload" = None →
   ∀ h : Handler,
     ∃ st', CourseYamlRESTHandler.put env h params st = (Ok tt, st')
            ∧ answered st st' 400
            ∧ course_yaml st' = course_yaml st)
  ∧ (∀ (key payload : value) (p : string)
       (request_data : gmap string value),
       req !! "key" = Some key → truthy key = true →
       req !! "payload" = Some (VStr p) → p ≠ "" →
       loads env p = Some payload →
       xsrf_token_valid env (VDict req) HtmlHookRESTHandler.XSRF_ACTION
       = true →
       can_edit env = true →
       hook_convert_json_to_entity env payload = Ok request_data →
       request_data !! "hook_content" = None →
       ∃ st', CourseYamlRESTHandler.put env
                (HtmlHookRESTHandler.handler env) params st = (Ok tt, st')
              ∧ answered st st' 400
              ∧ course_yaml st' = course_yaml st).
Proof.
  intros Hfs Hne Hloads. split.
  - intros Hpayload h.
    destruct (put_without_payload env h params req st Hfs Hne Hloads Hpayload)
      as (st' & Hrun & Hans).
    exists st'. repeat split; try assumption.
    exact (answered_course_yaml _ _ _ Hans).
  - intros key payload p request_data Hkey Hkt Hp Hpne Hpl Htok Hedit Hconv Hc.
    rewrite (put_reaches_process_put env (HtmlHookRESTHandler.handler env)
               params req key p payload st Hfs Hne Hloads Hkey Hkt Hp Hpne
               Hpl Htok Hedit).
    simpl. unfold HtmlHookRESTHandler.process_put, bind, lift, ret.
    rewrite Hconv, Hc. simpl.
    eexists. split; [reflexivity|]. split; [|reflexivity].
    eexists. split; reflexivity.
Qed.

Lemma put_missing_field_answers_400_witness :
  (∃ st', CourseYamlRESTHandler.put (demo_env true true)
            (CourseSettingsRESTHandler.handler (demo_env true true))
            {[ "request" := "no-payload" ]} (demo_state ∅) = (Ok tt, st')
          ∧ answered (demo_state ∅) st' 400
          ∧ course_yaml st' = course_yaml (demo_state ∅))
  ∧ (∃ st', CourseYamlRESTHandler.put (demo_env true true)
              (HtmlHookRESTHandler.handler (demo_env true true))
              {[ "request" := "hook-put-empty" ]} (demo_state ∅)
            = (Ok tt, st')
            ∧ answered (demo_state ∅) st' 400
            ∧ course_yaml st' = course_yaml (demo_state ∅)).
Proof.
  split.
  - assert (Hfs : is_editable_fs (demo_env true true) = true) by reflexivity.
    assert (Hne : request_get {[ "request" := "no-payload" ]} "request" ≠ "")
      by (vm_compute; discriminate).
    assert (Hloads : loads (demo_env true true)
                       (request_get {[ "request" := "no-payload" ]} "request")
                     = Some (VDict {[ "key" := VStr "a.b.c" ]}))
      by (vm_compute; reflexivity).
    apply (proj1 (put_missing_field_answers_400 (demo_env true true)
                    {[ "request" := "no-payload" ]}
                    {[ "key" := VStr "a.b.c" ]} (demo_state ∅)
                    Hfs Hne Hloads)).
    vm_compute. reflexivity.
  - assert (Hfs : is_editable_fs (demo_env true true) = true) by reflexivity.
    assert (Hne : request_get {[ "request" := "hook-put-empty" ]} "request"
                  ≠ "") by (vm_compute; discriminate).
    assert (Hloads : loads (demo_env true true)
                       (request_get {[ "request" := "hook-put-empty" ]}
                          "request")
                     = Some (VDict {[ "key" := VStr "a.b.c";
                                      "payload" := VStr "{}" ]}))
      by (vm_compute; reflexivity).
    apply (proj2 (put_missing_field_answers_400 (demo_env true true)
                    {[ "request" := "hook-put-empty" ]}
                    {[ "key" := VStr "a.b.c"; "payload" := VStr "{}" ]}
                    (demo_state ∅) Hfs Hne Hloads)
             (VStr "a.b.c") (VDict ∅) "{}" ∅).
    all: try (vm_compute; reflexivity).
    discriminate.
Defined.

(** *** PUT with a payload the schema rejects *)

(** C7, as stated, fails: a course settings PUT that passes every check
    and whose payload the schema rejects is answered 400, not 412. *)
Lemma settings_put_invalid_not_412 :
  settings_validate (demo_env true true)
    {[ "course" := VDict {[ "title" := VInt 5 ]} ]}
  = ["course:title must be a string"]
  ∧ CourseYamlRESTHandler.put (demo_env true true)
      (CourseSettingsRESTHandler.handler (demo_env true true))
      {[ "request" := "settings-put" ]} (demo_state ∅)
    = (Ok tt,
       respond (demo_state ∅)
         {| status := 400;
            message := "Invalid data: " ++ nl
                       ++ "course:title must be a string";
            payload_dict := None |})
  ∧ ¬ answered (demo_state ∅)
        (snd (CourseYamlRESTHandler.put (demo_env true true)
                (CourseSettingsRESTHandler.handler (demo_env true true))
                {[ "request" := "settings-put" ]} (demo_state ∅)))
        412.
Proof.
  assert (E : CourseYamlRESTHandler.put (demo_env true true)
                (CourseSettingsRESTHandler.handler (demo_env true true))
                {[ "request" := "settings-put" ]} (demo_state ∅)
              = (Ok tt,
                 respond (demo_state ∅)
                   {| status := 400;
                      message := "Invalid data: " ++ nl
                                 ++ "course:title must be a string";
                      payload_dict := None |})).
  { vm_compute. reflexivity. }
  split; [vm_compute; reflexivity|]. split; [exact E|].
  rewrite E. simpl. intros (r & Hr & Hstatus).
  apply (f_equal sent) in Hr. simpl in Hr.
  injection Hr as Hr. rewrite <- Hr in Hstatus. discriminate.
Qed.

(** C7 (amended).  On a course whose file system is editable, which [put]
    asserts first: a course settings PUT that passes the well-formedness,
    token and permission checks and whose payload fails schema validation
    is answered by exactly one response, whose status is 400; the handler
    returns before any merge or save, and the persisted settings document
    and the labels are unchanged. *)
Theorem settings_put_invalid_answers_400 (env : Env)
    (params : gmap string string) (req request_data : gmap string value)
    (key payload : value) (p : string) (st : hstate) :
  is_editable_fs env = true →
  request_get params "request" ≠ "" →
  loads env (request_get params "request") = Some (VDict req) →
  req !! "key" = Some key → truthy key = true →
  req !! "payload" = Some (VStr p) → p ≠ "" →
  loads env p = Some payload →
  xsrf_token_valid env (VDict req) CourseSettingsRESTHandler.XSRF_ACTION
  = true →
  can_edit env = true →
  settings_convert_json_to_entity env payload = Ok request_data →
  settings_validate env request_data ≠ [] →
  CourseYamlRESTHandler.put env (CourseSettingsRESTHandler.handler env)
    params st
  = (Ok tt,
     respond st
       {| status := 400;
          message := "Invalid data: " ++ nl
                     ++ str_join nl (settings_validate env request_data);
          payload_dict := None |}).
Proof.
  intros Hfs Hne Hloads Hkey Hkt Hp Hpne Hpl Htok Hedit Hconv Herr.
  rewrite (put_reaches_process_put env (CourseSettingsRESTHandler.handler env)
             params req key p payload st Hfs Hne Hloads Hkey Hkt Hp Hpne
             Hpl Htok Hedit).
  simpl. unfold CourseSettingsRESTHandler.process_put, bind, lift, ret.
  rewrite Hconv. simpl.
  rewrite bool_decide_eq_false_2 by exact Herr. reflexivity.
Qed.

Lemma settings_put_invalid_answers_400_witness :
  CourseYamlRESTHandler.put (demo_env true true)
    (CourseSettingsRESTHandler.handler (demo_env true true))
    {[ "request" := "settings-put" ]} (demo_state ∅)
  = (Ok tt,
     respond (demo_state ∅)
       {| status := 400;
          message := "Invalid data: " ++ nl
                     ++ str_join nl
                          (settings_validate (demo_env true true)
                             {[ "course" := VDict {[ "title" := VInt 5 ]} ]});
          payload_dict := None |}).
Proof.
  apply (settings_put_invalid_answers_400 (demo_env true true)
           {[ "request" := "settings-put" ]}
           {[ "key" := VStr "/course.yaml";
              "payload" := VStr "settings-payload" ]}
           {[ "course" := VDict {[ "title" := VInt 5 ]} ]}
           (VStr "/course.yaml")
           (VDict {[ "course" := VDict {[ "title" := VInt 5 ]} ]})
           "settings-payload" (demo_state ∅)).
  all: try (vm_compute; reflexivity).
  all: try (vm_compute; discriminate).
Defined.

(** A document [save_settings] rejects is answered 412 and then, as the
    handler does not return there, 200; nothing is written. *)
Example put_rejected_save_answers_twice :
  CourseYamlRESTHandler.put (demo_env_with true true false)
    (HtmlHookRESTHandler.handler (demo_env_with true true false))
    {[ "request" := "hook-put" ]} (demo_state ∅)
  = (Ok tt,
     respond (respond (demo_state ∅)
       {| status := 412; message := "Validation error.";
          payload_dict := None |})
       {| status := 200; message := "Saved."; payload_dict := None |}).
Proof. vm_compute. reflexivity. Qed.

(** *** DELETE on the course settings *)

(** The outcome of a DELETE on the course settings: the handler's own 401
    when the token gate lets the request through, the gate's answer
    otherwise. *)
Lemma settings_delete_outcome (env : Env) (params : gmap string string)
    (st : hstate) :
  CourseYamlRESTHandler.delete env (CourseSettingsRESTHandler.handler env)
    params st
  = (Ok tt,
     respond st
       (if xsrf_token_valid env (params_dict params)
             CourseSettingsRESTHandler.XSRF_ACTION
        then {| status := 401; message := "Access denied.";
                payload_dict :=
                  Some (VDict {[ "key" :=
                                   VStr (request_get params "key") ]}) |}
        else xsrf_failure env
               (VDict {[ "key" := VStr (request_get params "key") ]}))).
Proof.
  unfold CourseYamlRESTHandler.delete, bind, ret, assert_xsrf_token_or_fail.
  simpl. destruct (xsrf_token_valid env _ _); simpl.
  - destruct (can_edit env); reflexivity.
  - reflexivity.
Qed.

(** With a valid token the 401 is the handler's own, sent because
    [is_deletion_allowed] is false, whether the caller may edit or not. *)
Lemma settings_delete_valid_token (env : Env) (params : gmap string string)
    (st : hstate) :
  xsrf_token_valid env (params_dict params)
    CourseSettingsRESTHandler.XSRF_ACTION = true →
  CourseYamlRESTHandler.delete env (CourseSettingsRESTHandler.handler env)
    params st
  = bind (send_json_response 401 "Access denied."
            (Some (VDict {[ "key" := VStr (request_get params "key") ]})))
         (λ _, ret tt) st.
Proof.
  intros Htoken.
  unfold CourseYamlRESTHandler.delete, bind, ret, assert_xsrf_token_or_fail.
  simpl. rewrite Htoken. simpl. destruct (can_edit env); reflexivity.
Qed.

(** C9, as stated, does not follow from the handler: a DELETE whose token
    the gate refuses returns at once, before the 401 of [delete] is
    reached, and the only response is the gate's.  Where the gate answers
    403 the request is not answered 401, though the caller may edit. *)
Lemma settings_delete_bad_token :
  xsrf_token_valid (demo_env true false) (params_dict {[ "key" := "course" ]})
    CourseSettingsRESTHandler.XSRF_ACTION = false
  ∧ CourseYamlRESTHandler.delete (demo_env true false)
      (CourseSettingsRESTHandler.handler (demo_env true false))
      {[ "key" := "course" ]} (demo_state ∅)
    = (Ok tt,
       respond (demo_state ∅)
         {| status := 403; message := "Bad XSRF token.";
            payload_dict := Some (VDict {[ "key" := VStr "course" ]}) |})
  ∧ ¬ answered (demo_state ∅)
        (snd (CourseYamlRESTHandler.delete (demo_env true false)
                (CourseSettingsRESTHandler.handler (demo_env true false))
                {[ "key" := "course" ]} (demo_state ∅)))
        401.
Proof.
  assert (E : CourseYamlRESTHandler.delete (demo_env true false)
                (CourseSettingsRESTHandler.handler (demo_env true false))
                {[ "key" := "course" ]} (demo_state ∅)
              = (Ok tt,
                 respond (demo_state ∅)
                   {| status := 403; message := "Bad XSRF token.";
                      payload_dict :=
                        Some (VDict {[ "key" := VStr "course" ]}) |})).
  { vm_compute. reflexivity. }
  split; [reflexivity|]. split; [exact E|].
  rewrite E. simpl. intros (r & Hr & Hstatus).
  apply (f_equal sent) in Hr. simpl in Hr.
  injection Hr as Hr. rewrite <- Hr in Hstatus. discriminate.
Qed.

(** C9 (amended).  No DELETE sent to the course settings handler writes
    the settings document, whatever the caller's token and edit
    permission.  A DELETE that passes the token gate is answered by one
    response, 401 "Access denied.", whether the caller may edit or not,
    because [is_deletion_allowed] is false; a DELETE the gate refuses is
    answered by the gate alone. *)
Theorem settings_delete_denied (env : Env) (params : gmap string string)
    (st : hstate) :
  let run :=
    CourseYamlRESTHandler.delete env (CourseSettingsRESTHandler.handler env)
      params st in
  course_yaml (snd run) = course_yaml st
  ∧ (xsrf_token_valid env (params_dict params)
       CourseSettingsRESTHandler.XSRF_ACTION = true →
     run = (Ok tt,
            respond st
              {| status := 401; message := "Access denied.";
                 payload_dict :=
                   Some (VDict {[ "key" :=
                                    VStr (request_get params "key") ]}) |}))
  ∧ (xsrf_token_valid env (params_dict params)
       CourseSettingsRESTHandler.XSRF_ACTION = false →
     run = (Ok tt,
            respond st
              (xsrf_failure env
                 (VDict {[ "key" := VStr (request_get params "key") ]})))).
Proof.
  intros run. subst run. rewrite settings_delete_outcome.
  split; [reflexivity|]. split; intros ->; reflexivity.
Qed.

Lemma settings_delete_denied_witness :
  CourseYamlRESTHandler.delete (demo_env true true)
    (CourseSettingsRESTHandler.handler (demo_env true true))
    {[ "key" := "course" ]} (demo_state ∅)
  = (Ok tt,
     respond (demo_state ∅)
       {| status := 401; message := "Access denied.";
          payload_dict :=
            Some (VDict {[ "key" :=
                             VStr (request_get {[ "key" := "course" ]}
                                     "key") ]}) |}).
Proof.
  assert (Htoken : xsrf_token_valid (demo_env true true)
                     (params_dict {[ "key" := "course" ]})
                     CourseSettingsRESTHandler.XSRF_ACTION = true)
    by reflexivity.
  exact (proj1 (proj2 (settings_delete_denied (demo_env true true)
                         {[ "key" := "course" ]} (demo_state ∅))) Htoken).
Defined.

(** * Further properties of the pruner and the builder *)

Section PrunerMore.

Implicit Types (d : gmap string value) (P Q : list string).

Lemma removed_nil d d' : ¬ removed d d' [].
Proof. intros [_ H]. discriminate. Qed.

Lemma removed_same_lookup d d' k Q :
  d' !! k = d !! k → ¬ removed d d' (k :: Q).
Proof.
  intros E [[v Hv] Hnone]. rewrite get_path_cons in Hv, Hnone.
  rewrite E in Hnone. congruence.
Qed.

Lemma removed_by_delete d e v Q :
  d !! e = Some v → is_dict v = false → removed d (delete e d) Q → Q = [e].
Proof.
  intros He Hv HQ. destruct Q as [|k Q']; [destruct (removed_nil _ _ HQ)|].
  destruct (decide (k = e)) as [->|Hne].
  - destruct HQ as [[w Hw] _]. rewrite get_path_cons, He in Hw.
    simpl in Hw. now destruct (get_path_scalar _ _ _ Hv Hw) as [-> _].
  - destruct (removed_same_lookup _ _ _ _
                (lookup_delete_ne _ _ _ (not_eq_sym Hne)) HQ).
Qed.

(** X1.  On a tree-shaped document, one in which no dict object is bound
    at two places: every key path one call of the pruner removes is made of
    segments of the key, in their order: it is a subsequence of the key
    path, and so never longer than it. *)
Theorem prune_removes_subsequences (D : gmap string value)
    (P Q : list string) :
  removed D (prune D P) Q → sublist Q P ∧ (List.length Q ≤ List.length P)%nat.
Proof.
  intros H. assert (Hsub : sublist Q P); [|split; [exact Hsub|]].
  2: { exact (sublist_length _ _ Hsub). }
  revert D Q H. induction P as [|e rest IH]; intros D Q H.
  - destruct H as [[v Hv] Hnone]. simpl in Hnone. congruence.
  - destruct (lookup_cases D e) as [[nested He]|[(v & He & Hv)|He]].
    + rewrite (prune_descend _ _ _ _ He) in H.
      destruct Q as [|k Q']; [destruct (removed_nil _ _ H)|].
      destruct (decide (k = e)) as [->|Hne].
      * apply sublist_skip, (IH nested).
        destruct H as [Hb Ha]. rewrite get_path_cons, He in Hb.
        rewrite get_path_cons, lookup_insert_eq in Ha. now split.
      * destruct (removed_same_lookup _ _ _ _
                    (lookup_insert_ne _ _ _ _ (not_eq_sym Hne)) H).
    + rewrite (prune_del _ _ _ _ He Hv) in H.
      destruct (get_path (VDict (delete e D)) Q) as [w|] eqn:Hmid.
      * apply sublist_cons, (IH (delete e D)).
        split; [eauto|exact (proj2 H)].
      * rewrite (removed_by_delete D e v Q He Hv (conj (proj1 H) Hmid)).
        apply sublist_skip, sublist_nil_l.
    + rewrite (prune_missing _ _ _ He) in H.
      apply sublist_cons, (IH D Q H).
Qed.

Lemma prune_removes_subsequences_witness :
  sublist ["b"] ["a"; "b"]
  ∧ (List.length ["b"] ≤ List.length ["a"; "b"])%nat.
Proof.
  apply (prune_removes_subsequences {[ "b" := VStr "y" ]} ["a"; "b"] ["b"]).
  split; [vm_compute; eauto|vm_compute; reflexivity].
Defined.

Lemma prune_deeper_paths (P : list string) :
  ∀ (D : gmap string value) (Q : list string),
    (List.length P < List.length Q)%nat →
    get_path (VDict (prune D P)) Q = get_path (VDict D) Q.
Proof.
  induction P as [|e rest IH]; intros D Q Hlen; [reflexivity|].
  destruct Q as [|k Q']; [simpl in Hlen; lia|].
  simpl in Hlen. assert (Hlen' : (List.length rest < List.length Q')%nat) by lia.
  destruct (lookup_cases D e) as [[nested He]|[(v & He & Hv)|He]].
  - rewrite (prune_descend _ _ _ _ He), !get_path_cons.
    destruct (decide (k = e)) as [->|Hne].
    + rewrite lookup_insert_eq, He. simpl. exact (IH nested Q' Hlen').
    + now rewrite lookup_insert_ne by congruence.
  - rewrite (prune_del _ _ _ _ He Hv).
    rewrite (IH (delete e D) (k :: Q')) by (simpl; lia).
    rewrite !get_path_cons.
    destruct (decide (k = e)) as [->|Hne].
    + rewrite lookup_delete_eq, He. simpl.
      destruct Q' as [|k' Q'']; [simpl in Hlen'; lia|].
      now destruct v.
    + now rewrite lookup_delete_ne by congruence.
  - rewrite (prune_missing _ _ _ He).
    apply IH. simpl. lia.
Qed.

(** X2.  On a tree-shaped document, one in which no dict object is bound
    at two places: pruning a key path of [n] segments changes nothing more
    than [n] levels down: a key path longer than the key leads to the same
    value before and after. *)
Theorem prune_leaves_deeper_paths (P : list string) :
  ∀ (D : gmap string value) (Q : list string),
    (List.length P < List.length Q)%nat →
    get_path (VDict (prune D P)) Q = get_path (VDict D) Q.
Proof. apply prune_deeper_paths. Qed.

Lemma prune_leaves_deeper_paths_witness :
  get_path (VDict (prune {[ "a" := VDict {[ "b" := VStr "y" ]};
                            "b" := VStr "z" ]} ["b"])) ["a"; "b"]
  = get_path (VDict {[ "a" := VDict {[ "b" := VStr "y" ]};
                       "b" := VStr "z" ]}) ["a"; "b"].
Proof.
  apply (prune_leaves_deeper_paths ["b"]). simpl. lia.
Defined.

Lemma prune_lookup_None P : ∀ d k, d !! k = None → prune d P !! k = None.
Proof.
  intros d k Hk.
  destruct (prune d P !! k) as [v'|] eqn:E; [|reflexivity].
  destruct (prune_shrinks P d [k] v') as (v & Hv & _).
  - rewrite get_path_cons, E. reflexivity.
  - rewrite get_path_cons, Hk in Hv. discriminate.
Qed.

(** X3.  The pruner is idempotent: a second call with the same key finds
    nothing left to delete. *)
Theorem prune_idempotent (P : list string) :
  ∀ D : gmap string value, prune (prune D P) P = prune D P.
Proof.
  induction P as [|e rest IH]; intros D; [reflexivity|].
  destruct (lookup_cases D e) as [[nested He]|[(v & He & Hv)|He]].
  - rewrite (prune_descend _ _ _ _ He).
    rewrite (prune_descend _ _ _ _ (lookup_insert_eq _ _ _)).
    now rewrite IH, insert_insert_eq.
  - rewrite (prune_del _ _ _ _ He Hv).
    rewrite (prune_missing (prune (delete e D) rest) e rest).
    + apply IH.
    + apply prune_lookup_None, lookup_delete_eq.
  - rewrite (prune_missing _ _ _ He).
    rewrite (prune_missing (prune D rest) e rest).
    + apply IH.
    + now apply prune_lookup_None.
Qed.

(** X4.  What the builder puts under a key path is what that key path
    leads to: looking the segments up in the built mapping gives the hook
    content back. *)
Theorem build_get_path (P : list string) (V : value) :
  get_path (build P V) P = Some V.
Proof.
  rewrite build_right_nested.
  induction P as [|s rest IH]; [reflexivity|].
  simpl. now rewrite lookup_singleton_eq.
Qed.

End PrunerMore.

(** * Forum addresses of the course data *)

Section Splitting.

(** Splitting on a single character. *)
Lemma prefix_char (c a : ascii) (n s : string) :
  String.prefix (String c n) (String a s)
  = if ascii_dec c a then String.prefix n s else false.
Proof. reflexivity. Qed.

Lemma split_go_char (c a : ascii) (s : string) :
  split_go (String c "") 0 (String a s)
  = if ascii_dec c a
    then "" :: split_go (String c "") 0 s
    else match split_go (String c "") 0 s with
         | seg :: segs => String a seg :: segs
         | [] => [String a ""]
         end.
Proof.
  cbn [split_go]. rewrite prefix_char.
  destruct (ascii_dec c a); [|reflexivity].
  now destruct s.
Qed.

Lemma str_contains_char_cons (c a : ascii) (s : string) :
  str_contains (String c "") (String a s)
  = (if ascii_dec c a then true else false) || str_contains (String c "") s.
Proof.
  cbn [str_contains]. rewrite prefix_char.
  destruct (ascii_dec c a); [|reflexivity]. now destruct s.
Qed.

(** The first piece is the text before the first separator. *)
Lemma split_go_char_head (c : ascii) (s : string) :
  ∃ g tl, split_go (String c "") 0 s = g :: tl
          ∧ str_contains (String c "") g = false
          ∧ ((tl = [] ∧ s = g) ∨ ∃ rest, s = g ++ String c rest).
Proof.
  induction s as [|a s (g & tl & Hsplit & Hg & Hs)].
  - exists "", []. split; [reflexivity|]. split; [reflexivity|]. now left.
  - rewrite split_go_char. destruct (ascii_dec c a) as [<-|Hne].
    + exists "", (split_go (String c "") 0 s).
      split; [reflexivity|]. split; [reflexivity|]. right. now exists s.
    + rewrite Hsplit. exists (String a g), tl. split; [reflexivity|]. split.
      * rewrite str_contains_char_cons, Hg.
        now destruct (ascii_dec c a).
      * destruct Hs as [[-> ->]|[rest ->]]; [now left|].
        right. now exists rest.
Qed.

(** A text that contains a word contains the word's first character. *)
Lemma str_contains_first (c : ascii) (n s : string) :
  str_contains (String c n) s = true → str_contains (String c "") s = true.
Proof.
  induction s as [|a s IH]; [discriminate|].
  cbn [str_contains]. rewrite !prefix_char.
  destruct (ascii_dec c a).
  - intros _. now destruct s.
  - simpl. exact IH.
Qed.

Lemma str_contains_char_app (c : ascii) (g rest : string) :
  str_contains (String c "") (g ++ String c rest) = true.
Proof.
  induction g as [|a g IH].
  - change ("" ++ String c rest) with (String c rest).
    rewrite str_contains_char_cons.
    now destruct (ascii_dec c c).
  - change (String a g ++ String c rest) with (String a (g ++ String c rest)).
    rewrite str_contains_char_cons, IH. apply orb_true_r.
Qed.

End Splitting.

Section ForumAddress.

Import CourseSettingsRESTHandler.

Lemma split_go_char_app (c : ascii) (g rest : string) :
  str_contains (String c "") g = false →
  split_go (String c "") 0 (g ++ String c rest)
  = g :: split_go (String c "") 0 rest.
Proof.
  induction g as [|a g IH]; intros Hg.
  - change ("" ++ String c rest) with (String c rest).
    rewrite split_go_char. now destruct (ascii_dec c c).
  - change (String a g ++ String c rest) with (String a (g ++ String c rest)).
    rewrite str_contains_char_cons in Hg. apply orb_false_iff in Hg.
    destruct Hg as [Ha Hg]. rewrite split_go_char.
    destruct (ascii_dec c a); [discriminate|]. now rewrite (IH Hg).
Qed.

Lemma get_group_id_found (g rest : string) :
  str_contains "@" g = false →
  str_contains "@googlegroups.com" (g ++ "@" ++ rest) = true →
  get_group_id (VStr (g ++ "@" ++ rest)) = Ok (Some g).
Proof.
  intros Hg Hdom. unfold get_group_id.
  assert (Hne : truthy (VStr (g ++ "@" ++ rest)) = true).
  { now destruct g. }
  rewrite Hne. simpl. rewrite Hdom. simpl.
  unfold str_split. simpl.
  change ("@" ++ rest) with (String "@" rest).
  now rewrite (split_go_char_app "@" g rest Hg).
Qed.

Lemma get_group_id_none (s : string) :
  str_contains "@googlegroups.com" s = false →
  get_group_id (VStr s) = Ok None.
Proof.
  intros Hdom. unfold get_group_id. simpl. rewrite Hdom.
  now destruct (negb (s =? "")%string).
Qed.

(** X5.  [get_group_id] on a string: an address that does not contain
    "@googlegroups.com" (the empty one included) names no group; one that
    does names the group written before its first "@".  No string makes it
    raise. *)
Theorem get_group_id_string (s : string) :
  (str_contains "@googlegroups.com" s = false →
   get_group_id (VStr s) = Ok None)
  ∧ (str_contains "@googlegroups.com" s = true →
     ∃ g rest, get_group_id (VStr s) = Ok (Some g)
               ∧ s = g ++ "@" ++ rest
               ∧ str_contains "@" g = false).
Proof.
  split; [apply get_group_id_none|].
  intros Hdom.
  destruct (split_go_char_head "@" s) as (g & tl & Hsplit & Hg & Hs).
  destruct Hs as [[-> ->]|[rest ->]].
  - apply str_contains_first in Hdom. congruence.
  - exists g, rest. split; [|split; [reflexivity|exact Hg]].
    now apply get_group_id_found.
Qed.

Lemma get_groups_url_found (prefix g rest : string) :
  str_contains "@" g = false →
  str_contains "@googlegroups.com" (g ++ "@" ++ rest) = true →
  get_groups_url prefix (VStr (g ++ "@" ++ rest))
  = Ok (if (g =? "")%string then None else Some (prefix ++ g)).
Proof.
  intros Hg Hdom. unfold get_groups_url.
  rewrite (get_group_id_found g rest Hg Hdom). simpl.
  now destruct (g =? "")%string.
Qed.

Lemma get_groups_url_none (prefix : string) (s : string) :
  str_contains "@googlegroups.com" s = false →
  get_groups_url prefix (VStr s) = Ok None.
Proof.
  intros Hdom. unfold get_groups_url.
  now rewrite (get_group_id_none s Hdom).
Qed.

(** X6.  [_process_course_data] with a Google Groups forum address: the
    group named before the first "@" gives both forum URLs, and nothing
    else in the course data changes. *)
Theorem _process_course_data_group (d : gmap string value)
    (g rest : string) :
  d !! "forum_email" = Some (VStr (g ++ "@" ++ rest)) →
  str_contains "@googlegroups.com" (g ++ "@" ++ rest) = true →
  str_contains "@" g = false →
  g ≠ "" →
  _process_course_data (VDict d)
  = Ok (VDict (<[ "forum_embed_url" :=
                    VStr ("https://groups.google.com/forum/embed/?place=forum/"
                          ++ g) ]>
               (<[ "forum_url" :=
                     VStr ("https://groups.google.com/group/" ++ g) ]> d))).
Proof.
  intros Hemail Hdom Hg Hne.
  unfold _process_course_data, get_groups_web_url, get_groups_embed_url.
  simpl. rewrite Hemail. simpl.
  rewrite !(get_groups_url_found _ g rest Hg Hdom).
  apply String.eqb_neq in Hne. rewrite Hne. reflexivity.
Qed.

Lemma _process_course_data_group_witness :
  _process_course_data
    (VDict {[ "forum_email" := VStr ("cs101" ++ "@" ++ "googlegroups.com");
              "title" := VStr "CS 101" ]})
  = Ok (VDict (<[ "forum_embed_url" :=
                    VStr ("https://groups.google.com/forum/embed/?place=forum/"
                          ++ "cs101") ]>
               (<[ "forum_url" :=
                     VStr ("https://groups.google.com/group/" ++ "cs101") ]>
                  {[ "forum_email" :=
                       VStr ("cs101" ++ "@" ++ "googlegroups.com");
                     "title" := VStr "CS 101" ]}))).
Proof.
  apply (_process_course_data_group
           {[ "forum_email" := VStr ("cs101" ++ "@" ++ "googlegroups.com");
              "title" := VStr "CS 101" ]} "cs101" "googlegroups.com").
  - vm_compute. reflexivity.
  - vm_compute. reflexivity.
  - vm_compute. reflexivity.
  - discriminate.
Defined.

(** X7.  [_process_course_data] leaves the course data as they are when
    there is no forum address, when the address is empty or [None], when it
    is a string without "@googlegroups.com", and when nothing is written
    before its first "@": forum URLs already there are neither removed nor
    refreshed. *)
Theorem _process_course_data_unchanged (d : gmap string value) :
  (d !! "forum_email" = None ∨ d !! "forum_email" = Some VNone
   ∨ (∃ s, d !! "forum_email" = Some (VStr s)
           ∧ (str_contains "@googlegroups.com" s = false
              ∨ String.prefix "@" s = true))) →
  _process_course_data (VDict d) = Ok (VDict d).
Proof.
  unfold _process_course_data, get_groups_web_url, get_groups_embed_url.
  simpl.
  intros [H|[H|(s & H & Hs)]]; rewrite H; simpl; try reflexivity.
  destruct (str_contains "@googlegroups.com" s) eqn:Hdom.
  - destruct Hs as [Hs|Hs]; [discriminate|].
    destruct s as [|a s]; [discriminate|].
    rewrite prefix_char in Hs. destruct (ascii_dec "@" a) as [<-|]; [|discriminate].
    change (String "@" s) with ("" ++ "@" ++ s) in Hdom |- *.
    rewrite !(get_groups_url_found _ "" s eq_refl Hdom). reflexivity.
  - rewrite !(get_groups_url_none _ s Hdom). reflexivity.
Qed.

Lemma _process_course_data_unchanged_witness :
  _process_course_data
    (VDict {[ "forum_email" := VStr "forum@example.org";
              "forum_url" := VStr "https://groups.google.com/group/old" ]})
  = Ok (VDict {[ "forum_email" := VStr "forum@example.org";
                 "forum_url" := VStr "https://groups.google.com/group/old" ]}).
Proof.
  apply (_process_course_data_unchanged
           {[ "forum_email" := VStr "forum@example.org";
              "forum_url" := VStr "https://groups.google.com/group/old" ]}).
  right. right. exists "forum@example.org".
  split; [vm_compute; reflexivity|]. left. vm_compute. reflexivity.
Defined.

(** X8.  Whatever the forum address is, [_process_course_data] on a mapping
    that does not raise returns a mapping that differs from it at most in
    [forum_url] and [forum_embed_url], and no key is lost. *)
Theorem _process_course_data_frame (d : gmap string value) (r : value) :
  _process_course_data (VDict d) = Ok r →
  ∃ d', r = VDict d'
        ∧ (∀ k, k ≠ "forum_url" → k ≠ "forum_embed_url" → d' !! k = d !! k)
        ∧ (∀ k, is_Some (d !! k) → is_Some (d' !! k)).
Proof.
  assert (Hins : ∀ (m : gmap string value) k v,
            (∀ j, is_Some (m !! j) → is_Some (<[ k := v ]> m !! j))).
  { intros m k v j Hj. destruct (decide (k = j)) as [->|Hne].
    - rewrite lookup_insert_eq. eauto.
    - now rewrite lookup_insert_ne. }
  unfold _process_course_data. simpl.
  destruct (bool_decide (is_Some (d !! "forum_email"))); simpl.
  2: { intros [= <-]. exists d. auto. }
  destruct (d !! "forum_email") as [email|]; simpl; [|discriminate].
  destruct (get_groups_web_url email) as [[url|]|]; simpl; try discriminate;
    destruct (get_groups_embed_url email) as [[embed|]|]; simpl;
    try discriminate; intros [= <-]; eexists; (split; [reflexivity|]);
    split; intros k; intros; rewrite ?lookup_insert_ne by congruence;
    auto.
Qed.

Lemma _process_course_data_frame_witness :
  let d : gmap string value :=
    {[ "forum_email" := VStr "cs101@googlegroups.com";
       "forum_url" := VStr "https://groups.google.com/group/old";
       "title" := VStr "CS 101" ]} in
  ∃ d', VDict (<[ "forum_embed_url" :=
                    VStr "https://groups.google.com/forum/embed/?place=forum/cs101" ]>
               (<[ "forum_url" :=
                     VStr "https://groups.google.com/group/cs101" ]> d))
        = VDict d'
        ∧ (∀ k, k ≠ "forum_url" → k ≠ "forum_embed_url" → d' !! k = d !! k)
        ∧ (∀ k, is_Some (d !! k) → is_Some (d' !! k)).
Proof.
  intros d.
  apply (_process_course_data_frame d).
  vm_compute. reflexivity.
Defined.

End ForumAddress.

(** * Locale labels and the course settings [process_put] *)

Section Locales.

Import CourseSettingsRESTHandler.

Variable env : Env.

Implicit Types (st : hstate) (items existing : list value).

Lemma scalar_eqb_refl (v : value) (s : list value) (b : bool) :
  set_contains v s = Ok b → scalar_eqb v v = true.
Proof.
  destruct v; simpl; try discriminate; intros _; try reflexivity.
  - now destruct b0.
  - apply Z.eqb_refl.
  - apply String.eqb_refl.
Qed.

Lemma set_contains_app (v : value) (s1 s2 : list value) :
  set_contains v s1 = Ok true → set_contains v (s1 ++ s2) = Ok true.
Proof.
  destruct v; simpl; try discriminate; intros [= H]; f_equal;
    rewrite existsb_app, H; reflexivity.
Qed.

Lemma set_contains_last (v : value) (s0 s : list value) (b : bool) :
  set_contains v s0 = Ok b → set_contains v (s ++ [v]) = Ok true.
Proof.
  intros H. pose proof (scalar_eqb_refl v s0 b H) as Hrefl.
  assert (Hin : existsb (scalar_eqb v) (s ++ [v]) = true).
  { rewrite existsb_app. apply orb_true_iff. right.
    cbn [existsb]. now rewrite Hrefl. }
  destruct v; simpl in H; try discriminate; simpl; now rewrite Hin.
Qed.

(** The loop only ever appends labels. *)
Lemma extra_locales_loop_grows items : ∀ existing st,
  ∃ new, snd (extra_locales_loop existing items st)
         = {| course_yaml := course_yaml st;
              labels := labels st ++ new;
              sent := sent st |}.
Proof.
  induction items as [|item rest IH]; intros existing st.
  - exists []. simpl. rewrite app_nil_r. now destruct st.
  - cbn [extra_locales_loop]. unfold bind, lift.
    destruct (py_subscript item "locale") as [locale|e].
    2: { exists []. simpl. rewrite app_nil_r. now destruct st. }
    destruct (set_contains locale existing) as [[|]|e].
    + apply IH.
    + unfold save_label.
      destruct (IH existing
                  {| course_yaml := course_yaml st;
                     labels := labels st ++ [locale];
                     sent := sent st |}) as [new Hnew].
      exists (locale :: new). rewrite Hnew. simpl.
      now rewrite <- app_assoc.
    + exists []. simpl. rewrite app_nil_r. now destruct st.
Qed.

Lemma labelled_app titles more item :
  labelled titles item → labelled (titles ++ more) item.
Proof.
  intros (locale & Hl & Hs). exists locale.
  split; [exact Hl|now apply set_contains_app].
Qed.

Lemma extra_locales_loop_labels items : ∀ existing st st',
  (∀ v, set_contains v existing = Ok true →
        set_contains v (labels st) = Ok true) →
  extra_locales_loop existing items st = (Ok tt, st') →
  Forall (labelled (labels st')) items.
Proof.
  induction items as [|item rest IH]; intros existing st st' Hincl Hrun;
    [constructor|].
  cbn [extra_locales_loop] in Hrun. unfold bind, lift in Hrun.
  destruct (py_subscript item "locale") as [locale|e] eqn:Hloc;
    [|discriminate].
  destruct (set_contains locale existing) as [known|e] eqn:Hknown;
    [|discriminate].
  destruct known.
  - simpl in Hrun.
    destruct (extra_locales_loop_grows rest existing st) as [new Hnew].
    rewrite Hrun in Hnew. simpl in Hnew.
    constructor; [|exact (IH _ _ _ Hincl Hrun)].
    exists locale. split; [exact Hloc|]. rewrite Hnew. simpl.
    apply set_contains_app, Hincl, Hknown.
  - unfold save_label in Hrun. simpl in Hrun.
    set (st1 := {| course_yaml := course_yaml st;
                   labels := labels st ++ [locale];
                   sent := sent st |}) in Hrun.
    destruct (extra_locales_loop_grows rest existing st1) as [new Hnew].
    rewrite Hrun in Hnew. simpl in Hnew.
    constructor.
    + exists locale. split; [exact Hloc|]. rewrite Hnew. simpl.
      apply set_contains_app. exact (set_contains_last _ _ _ _ Hknown).
    + apply (IH existing st1 st'); [|exact Hrun].
      intros v Hv. simpl. apply set_contains_app, Hincl, Hv.
Qed.

Lemma extra_locales_loop_known items : ∀ existing st,
  Forall (labelled existing) items →
  extra_locales_loop existing items st = (Ok tt, st).
Proof.
  induction items as [|item rest IH]; intros existing st Hall;
    [reflexivity|].
  inversion Hall as [|? ? (locale & Hloc & Hknown) Hrest]; subst.
  cbn [extra_locales_loop]. unfold bind, lift.
  rewrite Hloc, Hknown. simpl. exact (IH _ _ Hrest).
Qed.

End Locales.

Section LocalesMore.

Import CourseSettingsRESTHandler.

Implicit Types (st : hstate).

(** X9.  When [_process_extra_locales] returns, every locale of the list
    and the course's default locale have a label: each item's locale is
    among the titles of the locale labels. *)
Theorem _process_extra_locales_labels (env : Env) (l : list value)
    (st st' : hstate) :
  _process_extra_locales env (VList l) st = (Ok tt, st') →
  Forall (labelled (labels st')) l
  ∧ set_contains (VStr (default_locale env)) (labels st') = Ok true.
Proof.
  unfold _process_extra_locales, bind, label_titles. intros Hrun.
  pose proof (extra_locales_loop_labels _ (labels st) st st'
                (λ v Hv, Hv) Hrun) as Hall.
  apply Forall_app in Hall. destruct Hall as [Hl Hd]. split; [exact Hl|].
  inversion Hd as [|? ? (locale & Hloc & Hin) _]; subst.
  simpl in Hloc. rewrite lookup_singleton_eq in Hloc.
  now injection Hloc as <-.
Qed.

Lemma _process_extra_locales_labels_witness :
  Forall (labelled [VStr "de"; VStr "fr"; VStr "en_US"])
    [VDict {[ "locale" := VStr "fr" ]}]
  ∧ set_contains (VStr (default_locale (demo_env true true)))
      [VStr "de"; VStr "fr"; VStr "en_US"] = Ok true.
Proof.
  apply (_process_extra_locales_labels (demo_env true true)
           [VDict {[ "locale" := VStr "fr" ]}]
           {| course_yaml := ∅; labels := [VStr "de"]; sent := [] |}
           {| course_yaml := ∅;
              labels := [VStr "de"; VStr "fr"; VStr "en_US"];
              sent := [] |}).
  vm_compute. reflexivity.
Defined.

Lemma extra_locales_grow (env : Env) (extra_locales : value) (st : hstate) :
  ∃ new,
    snd (_process_extra_locales env extra_locales st)
    = {| course_yaml := course_yaml st;
         labels := labels st ++ new;
         sent := sent st |}.
Proof.
  unfold _process_extra_locales, bind, label_titles, raise.
  destruct extra_locales;
    try (exists []; simpl; rewrite app_nil_r; now destruct st).
  apply extra_locales_loop_grows.
Qed.

(** X10.  [_process_extra_locales] only ever adds labels: whatever its
    argument, and whether it returns or raises, the labels it started with
    are still there, in place, and the settings document and the responses
    are untouched. *)
Theorem _process_extra_locales_grows (env : Env) (extra_locales : value)
    (st : hstate) :
  ∃ new,
    snd (_process_extra_locales env extra_locales st)
    = {| course_yaml := course_yaml st;
         labels := labels st ++ new;
         sent := sent st |}.
Proof. apply extra_locales_grow. Qed.

(** X11.  [_process_extra_locales] is idempotent: once it has returned, a
    second call with the same list finds a label for every locale and
    saves nothing. *)
Theorem _process_extra_locales_idempotent (env : Env) (l : list value)
    (st st' : hstate) :
  _process_extra_locales env (VList l) st = (Ok tt, st') →
  _process_extra_locales env (VList l) st' = (Ok tt, st').
Proof.
  intros Hrun.
  assert (Hall : Forall (labelled (labels st'))
                   (l ++ [VDict {[ "locale" := VStr (default_locale env) ]}])).
  { unfold _process_extra_locales, bind, label_titles in Hrun.
    exact (extra_locales_loop_labels _ (labels st) st st' (λ v Hv, Hv) Hrun). }
  unfold _process_extra_locales, bind, label_titles.
  now apply extra_locales_loop_known.
Qed.

Lemma _process_extra_locales_idempotent_witness :
  _process_extra_locales (demo_env true true)
    (VList [VDict {[ "locale" := VStr "fr" ]};
            VDict {[ "locale" := VStr "fr" ]}])
    {| course_yaml := ∅;
       labels := [VStr "de"; VStr "fr"; VStr "fr"; VStr "en_US"];
       sent := [] |}
  = (Ok tt,
     {| course_yaml := ∅;
        labels := [VStr "de"; VStr "fr"; VStr "fr"; VStr "en_US"];
        sent := [] |}).
Proof.
  apply (_process_extra_locales_idempotent (demo_env true true)
           [VDict {[ "locale" := VStr "fr" ]};
            VDict {[ "locale" := VStr "fr" ]}]
           {| course_yaml := ∅; labels := [VStr "de"]; sent := [] |}).
  vm_compute. reflexivity.
Defined.

Lemma settings_process_put_effects_aux (env : Env) (request payload : value)
    (st : hstate) :
  let r := fst (process_put env request payload st) in
  let st' := snd (process_put env request payload st) in
  course_yaml st' = course_yaml st
  ∧ (r = Ok None → answered st st' 400)
  ∧ (r ≠ Ok None → sent st' = sent st).
Proof.
  unfold process_put, bind, lift, ret.
  destruct (settings_convert_json_to_entity env payload) as [request_data|e];
    simpl; [|split; [reflexivity|split; [discriminate|reflexivity]]].
  destruct (bool_decide (settings_validate env request_data = [])); simpl.
  2: { split; [reflexivity|]. split; [|congruence].
       intros _. eexists. split; reflexivity. }
  set (locales := match request_data !! "extra_locales" with
                  | Some extra_locales =>
                      _process_extra_locales env extra_locales
                  | None => λ st, (Ok tt, st)
                  end).
  assert (Hlocales : course_yaml (snd (locales st)) = course_yaml st
                     ∧ sent (snd (locales st)) = sent st).
  { subst locales. destruct (request_data !! "extra_locales") as [v|].
    - destruct (extra_locales_grow env v st) as [new ->]. now split.
    - now split. }
  destruct Hlocales as [Hdoc Hsent].
  destruct (locales st) as [[[]|e] st1]; simpl in Hdoc, Hsent; simpl.
  - destruct (request_data !! "course") as [course_data|]; simpl.
    + destruct (_process_course_data course_data); simpl;
        (split; [exact Hdoc|split; [discriminate|intros _; exact Hsent]]).
    + split; [exact Hdoc|split; [discriminate|intros _; exact Hsent]].
  - split; [exact Hdoc|split; [discriminate|intros _; exact Hsent]].
Qed.


(** X12.  The course settings [process_put] never touches the persisted
    settings document.  It returns [None] exactly when it has written one
    response, with status 400; otherwise it writes no response. *)
Theorem settings_process_put_effects (env : Env) (request payload : value)
    (st : hstate) :
  let r := fst (process_put env request payload st) in
  let st' := snd (process_put env request payload st) in
  course_yaml st' = course_yaml st
  ∧ (r = Ok None → answered st st' 400)
  ∧ (r ≠ Ok None → sent st' = sent st).
Proof. apply settings_process_put_effects_aux. Qed.

End LocalesMore.

(** * What the verbs write *)

Section Writes.

Variable env : Env.

Implicit Types (st : hstate) (h : Handler) (params : gmap string string).

(** A handler whose [process_put] and [postprocess_put] leave the
    persisted document alone writes it through [put] only for a caller who
    may edit, and only a document [save_settings] accepts. *)
Lemma put_writes_guarded h params st :
  (∀ request payload st0,
     course_yaml (snd (Rest.process_put h request payload st0))
     = course_yaml st0) →
  (∀ settings request st0,
     course_yaml (snd (Rest.postprocess_put h settings request st0))
     = course_yaml st0) →
  let st' := snd (CourseYamlRESTHandler.put env h params st) in
  course_yaml st' = course_yaml st
  ∨ (can_edit env = true ∧ settings_valid env (course_yaml st') = true).
Proof.
  intros Hpp Hpost.
  unfold CourseYamlRESTHandler.put, bind, ret, lift, raise,
    assert_xsrf_token_or_fail, send_json_response, bind, ret,
    CourseYamlRESTHandler.get_course_dict, save_settings.
  destruct (is_editable_fs env); simpl; [|left; congruence].
  destruct (negb (negb (request_get params "request" =? "")%string)); simpl;
    [left; congruence|].
  destruct (loads env (request_get params "request")) as [request|]; simpl;
    [|left; congruence].
  destruct (py_get request "key") as [key|e]; simpl; [|left; congruence].
  destruct (negb (truthy key)); simpl; [left; congruence|].
  destruct (py_get request "payload") as [payload_param|e]; simpl;
    [|left; congruence].
  destruct (negb (truthy payload_param)); simpl; [left; congruence|].
  destruct (loads_value env payload_param) as [[payload|]|e]; simpl;
    try (left; congruence).
  destruct (xsrf_token_valid env request (Rest.XSRF_ACTION h)); simpl;
    [|left; congruence].
  destruct (can_edit env); simpl; [|left; congruence].
  specialize (Hpp request payload st).
  destruct (Rest.process_put h request payload st)
    as [[[request_data|]|e] st1]; simpl in Hpp |- *; try (left; congruence).
  destruct (negb (bool_decide (redacted env payload request_data = ∅)));
    simpl; [|left; congruence].
  match goal with
  | |- context [Rest.postprocess_put h ?cs request st1] =>
      specialize (Hpost cs request st1);
      destruct (Rest.postprocess_put h cs request st1)
        as [[course_settings|e] st2]; simpl in Hpost |- *; [|left; congruence]
  end.
  destruct (settings_valid env course_settings) eqn:Hvalid; simpl.
  - right. now split.
  - left. congruence.
Qed.

Lemma hook_process_put_keeps_doc request payload st :
  course_yaml (snd (HtmlHookRESTHandler.process_put env request payload st))
  = course_yaml st.
Proof.
  unfold HtmlHookRESTHandler.process_put, bind, lift, ret, raise,
    send_json_response.
  destruct (hook_convert_json_to_entity env payload) as [request_data|e];
    simpl; [|reflexivity].
  destruct (request_data !! "hook_content"); simpl; [|reflexivity].
  destruct (py_get request "key") as [key|e]; simpl; [|reflexivity].
  destruct (negb (truthy key)); simpl; [reflexivity|].
  destruct key; simpl; try reflexivity.
  now destruct (str_split s (SEPARATOR (hooks env))).
Qed.

Lemma hook_postprocess_put_keeps_state settings request st :
  snd (HtmlHookRESTHandler.postprocess_put env settings request st) = st.
Proof.
  unfold HtmlHookRESTHandler.postprocess_put, bind, lift, ret, raise.
  destruct (py_get request "key") as [key|e]; simpl; [|reflexivity].
  destruct (truthy key); simpl; [|reflexivity].
  destruct key; reflexivity.
Qed.

Lemma hook_process_delete_keeps_state params st :
  snd (HtmlHookRESTHandler.process_delete env params st) = st.
Proof.
  unfold HtmlHookRESTHandler.process_delete, bind, lift, ret,
    CourseYamlRESTHandler.get_course_dict,
    HtmlHookRESTHandler._process_delete_internal,
    HtmlHookRESTHandler._process_delete_internal_dict.
  simpl.
  destruct (str_split (request_get params "key") (SEPARATOR (hooks env)))
    as [elements|e]; simpl.
  - destruct (get_environ env (course_yaml st) !! HTML_HOOKS (hooks env))
      as [html_hooks|]; simpl; [|reflexivity].
    now destruct (prune_value html_hooks elements).
  - now destruct (get_environ env (course_yaml st) !! HTML_HOOKS (hooks env)).
Qed.

(** A handler whose [process_delete] leaves the persisted document alone
    writes it through [delete] only for a caller who may edit, when the
    class allows deletion. *)
Lemma delete_writes_guarded h params st :
  (∀ params0 st0,
     course_yaml (snd (Rest.process_delete h params0 st0)) = course_yaml st0) →
  let st' := snd (CourseYamlRESTHandler.delete env h params st) in
  course_yaml st' = course_yaml st
  ∨ (can_edit env = true ∧ Rest.is_deletion_allowed h = true
     ∧ settings_valid env (course_yaml st') = true).
Proof.
  intros Hpd.
  unfold CourseYamlRESTHandler.delete, bind, ret, lift, raise,
    assert_xsrf_token_or_fail, send_json_response, bind, ret, save_settings.
  destruct (xsrf_token_valid env _ _); simpl; [|left; congruence].
  destruct (can_edit env); simpl; [|left; congruence].
  destruct (Rest.is_deletion_allowed h); simpl; [|left; congruence].
  specialize (Hpd params st).
  destruct (Rest.process_delete h params st) as [[entity|e] st1];
    simpl in Hpd |- *; [|left; congruence].
  destruct (settings_valid env entity) eqn:Hvalid; simpl.
  - right. now repeat split.
  - left. congruence.
Qed.

End Writes.

(** X13.  For a caller who may not edit, neither PUT nor DELETE, on the
    course settings handler or on the hook handler, changes the persisted
    settings document, whatever the request. *)
Theorem no_edit_no_write (env : Env) (params : gmap string string)
    (st : hstate) :
  can_edit env = false →
  course_yaml (snd (CourseYamlRESTHandler.put env
                      (CourseSettingsRESTHandler.handler env) params st))
  = course_yaml st
  ∧ course_yaml (snd (CourseYamlRESTHandler.put env
                        (HtmlHookRESTHandler.handler env) params st))
    = course_yaml st
  ∧ course_yaml (snd (CourseYamlRESTHandler.delete env
                        (CourseSettingsRESTHandler.handler env) params st))
    = course_yaml st
  ∧ course_yaml (snd (CourseYamlRESTHandler.delete env
                        (HtmlHookRESTHandler.handler env) params st))
    = course_yaml st.
Proof.
  intros Hedit. repeat split.
  - destruct (put_writes_guarded env (CourseSettingsRESTHandler.handler env)
                params st) as [H|[H _]]; [| |exact H|congruence].
    + intros. exact (proj1 (settings_process_put_effects_aux env _ _ _)).
    + reflexivity.
  - destruct (put_writes_guarded env (HtmlHookRESTHandler.handler env)
                params st) as [H|[H _]]; [| |exact H|congruence].
    + intros. apply hook_process_put_keeps_doc.
    + intros. simpl. now rewrite hook_postprocess_put_keeps_state.
  - destruct (delete_writes_guarded env
                (CourseSettingsRESTHandler.handler env) params st)
      as [H|[H _]]; [|exact H|congruence].
    reflexivity.
  - destruct (delete_writes_guarded env (HtmlHookRESTHandler.handler env)
                params st) as [H|[H _]]; [|exact H|congruence].
    intros. simpl. now rewrite hook_process_delete_keeps_state.
Qed.

Lemma no_edit_no_write_witness :
  course_yaml (snd (CourseYamlRESTHandler.put (demo_env false true)
                      (HtmlHookRESTHandler.handler (demo_env false true))
                      {[ "request" := "hook-put" ]} (demo_state ∅)))
  = course_yaml (demo_state ∅).
Proof.
  assert (Hedit : can_edit (demo_env false true) = false) by reflexivity.
  exact (proj1 (proj2 (no_edit_no_write (demo_env false true)
                         {[ "request" := "hook-put" ]} (demo_state ∅)
                         Hedit))).
Defined.


(** * The hook handler, end to end *)

Section HookVerbs.

Variable env : Env.

Implicit Types (st : hstate) (params : gmap string string).
Implicit Types (req request_data : gmap string value).

Lemma hook_process_put_eq req request_data payload V key P st :
  req !! "key" = Some (VStr key) → key ≠ "" →
  hook_convert_json_to_entity env payload = Ok request_data →
  request_data !! "hook_content" = Some V →
  str_split key (SEPARATOR (hooks env)) = Ok P →
  HtmlHookRESTHandler.process_put env (VDict req) payload st
  = (Ok (Some {[ HTML_HOOKS (hooks env) := right_nested P V ]}), st).
Proof.
  intros Hkey Hne Hconv Hcontent Hsplit.
  unfold HtmlHookRESTHandler.process_put, bind, lift, ret.
  rewrite Hconv, Hcontent. simpl. unfold dict_get. rewrite Hkey. simpl.
  apply String.eqb_neq in Hne. rewrite Hne. simpl.
  rewrite Hsplit. now rewrite build_right_nested.
Qed.

Lemma hook_postprocess_put_eq req key P settings st :
  req !! "key" = Some (VStr key) → key ≠ "" →
  str_split key (SEPARATOR (hooks env)) = Ok P →
  HtmlHookRESTHandler.postprocess_put env settings (VDict req) st
  = (Ok (prune settings P), st).
Proof.
  intros Hkey Hne Hsplit.
  unfold HtmlHookRESTHandler.postprocess_put, bind, lift, ret,
    HtmlHookRESTHandler._process_delete_internal_dict.
  simpl. unfold dict_get. rewrite Hkey. simpl.
  apply String.eqb_neq in Hne. rewrite Hne. simpl. now rewrite Hsplit.
Qed.

(** The outcome of a hook PUT that passes every check. *)
Lemma hook_put_outcome params req request_data payload V key p P st :
  is_editable_fs env = true →
  request_get params "request" ≠ "" →
  loads env (request_get params "request") = Some (VDict req) →
  req !! "key" = Some (VStr key) → key ≠ "" →
  req !! "payload" = Some (VStr p) → p ≠ "" →
  loads env p = Some payload →
  xsrf_token_valid env (VDict req) HtmlHookRESTHandler.XSRF_ACTION = true →
  can_edit env = true →
  hook_convert_json_to_entity env payload = Ok request_data →
  request_data !! "hook_content" = Some V →
  str_split key (SEPARATOR (hooks env)) = Ok P →
  let update :=
    redacted env payload {[ HTML_HOOKS (hooks env) := right_nested P V ]} in
  let merged :=
    deep_dict_merge env update (get_environ env (course_yaml st)) in
  update ≠ ∅ →
  CourseYamlRESTHandler.put env (HtmlHookRESTHandler.handler env) params st
  = if settings_valid env (prune merged P)
    then (Ok tt,
          respond {| course_yaml := prune merged P;
                     labels := labels st;
                     sent := sent st |}
            {| status := 200; message := "Saved.";
               payload_dict := None |})
    else (Ok tt,
          respond (respond st
            {| status := 412; message := "Validation error.";
               payload_dict := None |})
            {| status := 200; message := "Saved."; payload_dict := None |}).
Proof.
  intros Hfs Hne Hloads Hkey Hkne Hp Hpne Hpl Htok Hedit Hconv Hc Hsplit
    update merged Hupdate.
  rewrite (put_reaches_process_put env (HtmlHookRESTHandler.handler env)
             params req (VStr key) p payload st Hfs Hne Hloads Hkey
             (truthy_VStr _ Hkne) Hp Hpne Hpl Htok Hedit).
  simpl.
  rewrite (hook_process_put_eq req request_data payload V key P st
             Hkey Hkne Hconv Hc Hsplit).
  fold update. rewrite (bool_decide_eq_false_2 _ Hupdate). simpl.
  fold merged.
  rewrite (hook_postprocess_put_eq req key P merged st Hkey Hkne Hsplit).
  reflexivity.
Qed.

End HookVerbs.

(** X14.  A hook PUT that passes every check and whose result
    [save_settings] accepts is answered by one response, 200, and persists
    the merged settings pruned along the key path from the top level.
    That clean-up of an old top-level entry never touches the content just
    written under the reserved key, and only ever drops leaves. *)
Theorem hook_put_saves (env : Env) (params : gmap string string)
    (req request_data : gmap string value) (payload V : value)
    (key p : string) (P : list string) (st : hstate) :
  is_editable_fs env = true →
  request_get params "request" ≠ "" →
  loads env (request_get params "request") = Some (VDict req) →
  req !! "key" = Some (VStr key) → key ≠ "" →
  req !! "payload" = Some (VStr p) → p ≠ "" →
  loads env p = Some payload →
  xsrf_token_valid env (VDict req) HtmlHookRESTHandler.XSRF_ACTION = true →
  can_edit env = true →
  hook_convert_json_to_entity env payload = Ok request_data →
  request_data !! "hook_content" = Some V →
  str_split key (SEPARATOR (hooks env)) = Ok P →
  let update :=
    redacted env payload {[ HTML_HOOKS (hooks env) := right_nested P V ]} in
  let merged :=
    deep_dict_merge env update (get_environ env (course_yaml st)) in
  update ≠ ∅ →
  settings_valid env (prune merged P) = true →
  CourseYamlRESTHandler.put env (HtmlHookRESTHandler.handler env) params st
  = (Ok tt,
     respond {| course_yaml := prune merged P;
                labels := labels st;
                sent := sent st |}
       {| status := 200; message := "Saved."; payload_dict := None |})
  ∧ get_path (VDict (prune merged P)) (HTML_HOOKS (hooks env) :: P)
    = get_path (VDict merged) (HTML_HOOKS (hooks env) :: P)
  ∧ shrinks merged (prune merged P).
Proof.
  intros Hfs Hne Hloads Hkey Hkne Hp Hpne Hpl Htok Hedit Hconv Hc Hsplit
    update merged Hupdate Hvalid.
  split; [|split].
  - rewrite (hook_put_outcome env params req request_data payload V key p P st
               Hfs Hne Hloads Hkey Hkne Hp Hpne Hpl Htok Hedit Hconv Hc
               Hsplit Hupdate).
    fold update merged. now rewrite Hvalid.
  - apply prune_deeper_paths. simpl. lia.
  - apply prune_shrinks.
Qed.

Lemma hook_put_saves_witness :
  CourseYamlRESTHandler.put (demo_env true true)
    (HtmlHookRESTHandler.handler (demo_env true true))
    {[ "request" := "hook-put" ]}
    (demo_state {[ "a" := VDict {[ "b" := VDict {[ "c" := VStr "old" ]} ]} ]})
  = (Ok tt,
     respond
       {| course_yaml :=
            prune (deep_dict_merge (demo_env true true)
                     (redacted (demo_env true true)
                        (VDict {[ "hook_content" := VStr "<p>hi</p>" ]})
                        {[ HTML_HOOKS (hooks (demo_env true true)) :=
                             right_nested ["a"; "b"; "c"]
                               (VStr "<p>hi</p>") ]})
                     (get_environ (demo_env true true)
                        (course_yaml
                           (demo_state
                              {[ "a" := VDict {[ "b" :=
                                   VDict {[ "c" := VStr "old" ]} ]} ]}))))
              ["a"; "b"; "c"];
          labels := [];
          sent := [] |}
       {| status := 200; message := "Saved."; payload_dict := None |}).
Proof.
  refine (proj1 (hook_put_saves (demo_env true true)
                   {[ "request" := "hook-put" ]}
                   {[ "key" := VStr "a.b.c";
                      "payload" := VStr "hook-payload" ]}
                   {[ "hook_content" := VStr "<p>hi</p>" ]}
                   (VDict {[ "hook_content" := VStr "<p>hi</p>" ]})
                   (VStr "<p>hi</p>") "a.b.c" "hook-payload"
                   ["a"; "b"; "c"]
                   (demo_state
                      {[ "a" := VDict {[ "b" :=
                           VDict {[ "c" := VStr "old" ]} ]} ]})
                   _ _ _ _ _ _ _ _ _ _ _ _ _ _ _)).
  all: try (vm_compute; reflexivity).
  all: try discriminate.
  all: try (vm_compute; discriminate).
  all: try (intros H; exact (map_non_empty_singleton _ _ H)).
Defined.

(** X15.  A hook PUT that passes every check and whose result
    [save_settings] rejects is answered twice, 412 and then 200, as [put]
    does not return after the first response; nothing is written. *)
Theorem hook_put_rejected (env : Env) (params : gmap string string)
    (req request_data : gmap string value) (payload V : value)
    (key p : string) (P : list string) (st : hstate) :
  is_editable_fs env = true →
  request_get params "request" ≠ "" →
  loads env (request_get params "request") = Some (VDict req) →
  req !! "key" = Some (VStr key) → key ≠ "" →
  req !! "payload" = Some (VStr p) → p ≠ "" →
  loads env p = Some payload →
  xsrf_token_valid env (VDict req) HtmlHookRESTHandler.XSRF_ACTION = true →
  can_edit env = true →
  hook_convert_json_to_entity env payload = Ok request_data →
  request_data !! "hook_content" = Some V →
  str_split key (SEPARATOR (hooks env)) = Ok P →
  let update :=
    redacted env payload {[ HTML_HOOKS (hooks env) := right_nested P V ]} in
  let merged :=
    deep_dict_merge env update (get_environ env (course_yaml st)) in
  update ≠ ∅ →
  settings_valid env (prune merged P) = false →
  CourseYamlRESTHandler.put env (HtmlHookRESTHandler.handler env) params st
  = (Ok tt,
     respond (respond st
       {| status := 412; message := "Validation error.";
          payload_dict := None |})
       {| status := 200; message := "Saved."; payload_dict := None |}).
Proof.
  intros Hfs Hne Hloads Hkey Hkne Hp Hpne Hpl Htok Hedit Hconv Hc Hsplit
    update merged Hupdate Hvalid.
  rewrite (hook_put_outcome env params req request_data payload V key p P st
             Hfs Hne Hloads Hkey Hkne Hp Hpne Hpl Htok Hedit Hconv Hc
             Hsplit Hupdate).
  fold update merged. now rewrite Hvalid.
Qed.

Lemma hook_put_rejected_witness :
  CourseYamlRESTHandler.put (demo_env_with true true false)
    (HtmlHookRESTHandler.handler (demo_env_with true true false))
    {[ "request" := "hook-put" ]} (demo_state ∅)
  = (Ok tt,
     respond (respond (demo_state ∅)
       {| status := 412; message := "Validation error.";
          payload_dict := None |})
       {| status := 200; message := "Saved."; payload_dict := None |}).
Proof.
  refine (hook_put_rejected (demo_env_with true true false)
            {[ "request" := "hook-put" ]}
            {[ "key" := VStr "a.b.c"; "payload" := VStr "hook-payload" ]}
            {[ "hook_content" := VStr "<p>hi</p>" ]}
            (VDict {[ "hook_content" := VStr "<p>hi</p>" ]})
            (VStr "<p>hi</p>") "a.b.c" "hook-payload" ["a"; "b"; "c"]
            (demo_state ∅) _ _ _ _ _ _ _ _ _ _ _ _ _ _ _).
  all: try (vm_compute; reflexivity).
  all: try discriminate.
  all: try (vm_compute; discriminate).
  all: try (intros H; exact (map_non_empty_singleton _ _ H)).
Defined.

Section HookDelete.

Implicit Types (st : hstate) (params : gmap string string).

Lemma split_go_nonempty (s : string) : ∀ sep k, split_go sep k s ≠ [].
Proof.
  induction s as [|c s IH]; intros sep k; [discriminate|].
  cbn [split_go]. destruct k; [|apply IH].
  destruct (String.prefix sep (String c s)); [discriminate|].
  destruct (split_go sep 0 s); discriminate.
Qed.

Lemma scan_not_iterable (v : value) (elements : list string) :
  (∀ e, py_contains e v = Raise TypeError) → elements ≠ [] →
  scan_non_dict v elements = Raise TypeError.
Proof.
  intros Hv Hne. destruct elements as [|e rest]; [congruence|].
  simpl. now rewrite Hv.
Qed.

Lemma process_delete_raises (env : Env) params st (v : value) :
  SEPARATOR (hooks env) ≠ "" →
  get_environ env (course_yaml st) !! HTML_HOOKS (hooks env) = Some v →
  (∀ e, py_contains e v = Raise TypeError) →
  HtmlHookRESTHandler.process_delete env params st = (Raise TypeError, st).
Proof.
  intros Hsep Hv Hnot.
  unfold HtmlHookRESTHandler.process_delete, bind, lift, ret,
    CourseYamlRESTHandler.get_course_dict,
    HtmlHookRESTHandler._process_delete_internal, str_split.
  simpl. rewrite Hv. apply String.eqb_neq in Hsep. rewrite Hsep. simpl.
  assert (Hscan : prune_value v (split_go (SEPARATOR (hooks env)) 0
                                   (request_get params "key"))
                  = Raise TypeError).
  { unfold prune_value.
    rewrite (scan_not_iterable v _ Hnot (split_go_nonempty _ _ _)).
    destruct v; try reflexivity. specialize (Hnot ""). discriminate. }
  now rewrite Hscan.
Qed.

(** X16.  When the reserved key [HTML_HOOKS] is bound to a value that is
    not iterable ([None], a boolean, a number), [process_delete] raises
    [TypeError] at its first call of the pruner, whatever the key; a DELETE
    from an authorised caller then writes nothing and sends no
    response. *)
Theorem hook_delete_raises (env : Env) (params : gmap string string)
    (st : hstate) (v : value) :
  SEPARATOR (hooks env) ≠ "" →
  get_environ env (course_yaml st) !! HTML_HOOKS (hooks env) = Some v →
  (∀ e, py_contains e v = Raise TypeError) →
  HtmlHookRESTHandler.process_delete env params st = (Raise TypeError, st)
  ∧ (xsrf_token_valid env (params_dict params)
       HtmlHookRESTHandler.XSRF_ACTION = true →
     can_edit env = true →
     CourseYamlRESTHandler.delete env (HtmlHookRESTHandler.handler env)
       params st = (Raise TypeError, st)).
Proof.
  intros Hsep Hv Hnot.
  pose proof (process_delete_raises env params st v Hsep Hv Hnot) as Hrun.
  split; [exact Hrun|]. intros Htoken Hedit.
  unfold CourseYamlRESTHandler.delete, bind, ret, assert_xsrf_token_or_fail.
  simpl. rewrite Htoken, Hedit. simpl. now rewrite Hrun.
Qed.

Lemma hook_delete_raises_witness :
  HtmlHookRESTHandler.process_delete (demo_env true true)
    {[ "key" := "a.b" ]}
    (demo_state {[ "html_hooks" := VNone; "a" := VStr "legacy" ]})
  = (Raise TypeError,
     demo_state {[ "html_hooks" := VNone; "a" := VStr "legacy" ]}).
Proof.
  refine (proj1 (hook_delete_raises (demo_env true true)
                   {[ "key" := "a.b" ]}
                   (demo_state {[ "html_hooks" := VNone;
                                  "a" := VStr "legacy" ]})
                   VNone _ _ _)).
  - discriminate.
  - vm_compute. reflexivity.
  - reflexivity.
Defined.

(** X17.  A hook DELETE from an authorised caller whose pruned document
    [save_settings] rejects gets no response at all, and nothing is
    written. *)
Theorem hook_delete_rejected (env : Env) (params : gmap string string)
    (st : hstate) (P : list string) :
  let D := get_environ env (course_yaml st) in
  let HOOKS := HTML_HOOKS (hooks env) in
  xsrf_token_valid env (params_dict params) HtmlHookRESTHandler.XSRF_ACTION
  = true →
  can_edit env = true →
  str_split (request_get params "key") (SEPARATOR (hooks env)) = Ok P →
  (∀ v, D !! HOOKS = Some v → is_dict v = true) →
  settings_valid env
    (prune (match D !! HOOKS with
            | Some (VDict h) => <[ HOOKS := VDict (prune h P) ]> D
            | _ => D
            end) P) = false →
  CourseYamlRESTHandler.delete env (HtmlHookRESTHandler.handler env) params st
  = (Ok tt, st).
Proof.
  intros D HOOKS Htoken Hedit HP Hdict Hvalid.
  unfold CourseYamlRESTHandler.delete, bind, ret, assert_xsrf_token_or_fail.
  simpl. rewrite Htoken, Hedit. simpl.
  rewrite (process_delete_eq env params st P HP Hdict).
  unfold save_settings. fold D HOOKS. now rewrite Hvalid.
Qed.

Lemma hook_delete_rejected_witness :
  CourseYamlRESTHandler.delete (demo_env_with true true false)
    (HtmlHookRESTHandler.handler (demo_env_with true true false))
    {[ "key" := "a.b" ]}
    (demo_state {[ "html_hooks" := VDict {[ "a" :=
                     VDict {[ "b" := VStr "x" ]} ]} ]})
  = (Ok tt,
     demo_state {[ "html_hooks" := VDict {[ "a" :=
                     VDict {[ "b" := VStr "x" ]} ]} ]}).
Proof.
  refine (hook_delete_rejected (demo_env_with true true false)
            {[ "key" := "a.b" ]}
            (demo_state {[ "html_hooks" := VDict {[ "a" :=
                             VDict {[ "b" := VStr "x" ]} ]} ]})
            ["a"; "b"] _ _ _ _ _).
  all: try reflexivity.
  intros v Hv.
  assert (E : get_environ (demo_env_with true true false)
                (course_yaml
                   (demo_state {[ "html_hooks" := VDict {[ "a" :=
                                    VDict {[ "b" := VStr "x" ]} ]} ]}))
                !! HTML_HOOKS (hooks (demo_env_with true true false))
              = Some (VDict {[ "a" := VDict {[ "b" := VStr "x" ]} ]}))
    by (vm_compute; reflexivity).
  rewrite E in Hv.
  exact (eq_sym (f_equal (λ o, match o with
                               | Some w => is_dict w
                               | None => true
                               end) Hv)).
Defined.

(** X24.  A hook DELETE from an authorised caller whose pruned document
    [save_settings] accepts persists that document, pruned inside the
    mapping under the reserved key and from the top level, and is answered
    by one response, 200 "Deleted.". *)
Theorem hook_delete_success (env : Env) (params : gmap string string)
    (st : hstate) (P : list string) :
  let D := get_environ env (course_yaml st) in
  let HOOKS := HTML_HOOKS (hooks env) in
  let D' := prune (match D !! HOOKS with
                   | Some (VDict h) => <[ HOOKS := VDict (prune h P) ]> D
                   | _ => D
                   end) P in
  xsrf_token_valid env (params_dict params) HtmlHookRESTHandler.XSRF_ACTION
  = true →
  can_edit env = true →
  str_split (request_get params "key") (SEPARATOR (hooks env)) = Ok P →
  (∀ v, D !! HOOKS = Some v → is_dict v = true) →
  settings_valid env D' = true →
  CourseYamlRESTHandler.delete env (HtmlHookRESTHandler.handler env) params st
  = (Ok tt,
     respond {| course_yaml := D'; labels := labels st; sent := sent st |}
       {| status := 200; message := "Deleted."; payload_dict := None |}).
Proof.
  intros D HOOKS D' Htoken Hedit HP Hdict Hvalid.
  apply (hook_delete_saves env params st D' Htoken Hedit); [|exact Hvalid].
  exact (process_delete_eq env params st P HP Hdict).
Qed.

Lemma hook_delete_success_witness :
  CourseYamlRESTHandler.delete (demo_env true true)
    (HtmlHookRESTHandler.handler (demo_env true true))
    {[ "key" := "a" ]} (demo_state {[ "a" := VStr "x" ]})
  = (Ok tt,
     respond {| course_yaml := ∅; labels := []; sent := [] |}
       {| status := 200; message := "Deleted."; payload_dict := None |}).
Proof.
  assert (E : prune (match get_environ (demo_env true true)
                             (course_yaml (demo_state {[ "a" := VStr "x" ]}))
                           !! HTML_HOOKS (hooks (demo_env true true)) with
                     | Some (VDict h) =>
                         <[ HTML_HOOKS (hooks (demo_env true true)) :=
                              VDict (prune h ["a"]) ]>
                           (get_environ (demo_env true true)
                              (course_yaml (demo_state {[ "a" := VStr "x" ]})))
                     | _ => get_environ (demo_env true true)
                              (course_yaml (demo_state {[ "a" := VStr "x" ]}))
                     end) ["a"] = ∅) by (vm_compute; reflexivity).
  rewrite <- E.
  refine (hook_delete_success (demo_env true true) {[ "key" := "a" ]}
            (demo_state {[ "a" := VStr "x" ]}) ["a"] _ _ _ _ _).
  all: try reflexivity.
  intros v Hv.
  assert (E' : get_environ (demo_env true true)
                 (course_yaml (demo_state {[ "a" := VStr "x" ]}))
                 !! HTML_HOOKS (hooks (demo_env true true)) = None)
    by (vm_compute; reflexivity).
  rewrite E' in Hv. discriminate.
Defined.

(** X18.  The document a hook DELETE returns has only lost leaves: every
    key path that led to a mapping still does, nothing is added, and no
    remaining leaf is altered.  ([html_hooks] is missing or bound to a
    mapping.) *)
Theorem process_delete_only_drops_leaves (env : Env)
    (params : gmap string string) (st : hstate) (P : list string) :
  let D := get_environ env (course_yaml st) in
  str_split (request_get params "key") (SEPARATOR (hooks env)) = Ok P →
  (∀ v, D !! HTML_HOOKS (hooks env) = Some v → is_dict v = true) →
  ∃ D' : gmap string value,
    HtmlHookRESTHandler.process_delete env params st = (Ok D', st)
    ∧ keeps_mappings D D'
    ∧ shrinks D D'.
Proof.
  intros D HP Hdict.
  eexists. split; [exact (process_delete_eq env params st P HP Hdict)|].
  fold D.
  destruct (D !! HTML_HOOKS (hooks env)) as [[| | | | |h]|] eqn:E;
    try (split; [apply prune_keeps_mappings|apply prune_shrinks]).
  split.
  - eapply keeps_mappings_trans; [|apply prune_keeps_mappings].
    eapply keeps_mappings_insert; [exact E|apply prune_keeps_mappings].
  - eapply shrinks_trans; [|apply prune_shrinks].
    eapply shrinks_insert; [exact E|apply prune_shrinks].
Qed.

Lemma process_delete_only_drops_leaves_witness :
  ∃ D' : gmap string value,
    HtmlHookRESTHandler.process_delete (demo_env true true)
      {[ "key" := "a.b" ]} (demo_state {[ "a" := VStr "x" ]})
    = (Ok D', demo_state {[ "a" := VStr "x" ]})
    ∧ keeps_mappings {[ "a" := VStr "x" ]} D'
    ∧ shrinks {[ "a" := VStr "x" ]} D'.
Proof.
  refine (process_delete_only_drops_leaves (demo_env true true)
            {[ "key" := "a.b" ]} (demo_state {[ "a" := VStr "x" ]})
            ["a"; "b"] _ _).
  - reflexivity.
  - intros v Hv.
    assert (E : get_environ (demo_env true true)
                  (course_yaml (demo_state {[ "a" := VStr "x" ]}))
                  !! HTML_HOOKS (hooks (demo_env true true)) = None)
      by (vm_compute; reflexivity).
    rewrite E in Hv. discriminate.
Defined.

End HookDelete.

(** * Course availability and browsability *)

Section Availability.

Implicit Types (st : hstate) (params : gmap string string).

Lemma post_course_availability_eq (env : Env) params st
    (c : gmap string value) :
  get_environ env (course_yaml st) !! "course" = Some (VDict c) →
  CourseSettingsHandler.post_course_availability env params st
  = let settings :=
      <[ "course" :=
           VDict (<[ "now_available" :=
                       VBool (request_get params "availability" =? "True")
                   ]> c) ]> (get_environ env (course_yaml st)) in
    (Ok "/dashboard",
     if settings_valid env settings
     then {| course_yaml := settings; labels := labels st; sent := sent st |}
     else st).
Proof.
  intros Hc.
  unfold CourseSettingsHandler.post_course_availability, bind, lift, ret,
    CourseYamlRESTHandler.get_course_dict, save_settings.
  simpl. rewrite Hc. simpl.
  now destruct (settings_valid env _).
Qed.






(** X21.  [post_course_availability] ignores what [save_settings]
    returns: when the store rejects the document the handler redirects to
    the dashboard as on success and nothing is written.  Settings without a
    [course] entry make it raise [KeyError], and a [course] entry that is
    not a mapping [TypeError], before anything is saved. *)
Theorem post_course_availability_failures (env : Env)
    (params : gmap string string) (st : hstate) :
  let D := get_environ env (course_yaml st) in
  let run := CourseSettingsHandler.post_course_availability env params st in
  (D !! "course" = None → run = (Raise KeyError, st))
  ∧ (∀ v, D !! "course" = Some v → is_dict v = false →
          run = (Raise TypeError, st))
  ∧ (∀ c, D !! "course" = Some (VDict c) →
          settings_valid env
            (<[ "course" :=
                  VDict (<[ "now_available" :=
                              VBool (request_get params "availability"
                                     =? "True") ]> c) ]> D) = false →
          run = (Ok "/dashboard", st)).
Proof.
  intros D run. subst run. split; [|split].
  - intros Hc.
    unfold CourseSettingsHandler.post_course_availability, bind, lift, ret,
      CourseYamlRESTHandler.get_course_dict.
    simpl. fold D. now rewrite Hc.
  - intros v Hc Hv.
    unfold CourseSettingsHandler.post_course_availability, bind, lift, ret,
      CourseYamlRESTHandler.get_course_dict.
    simpl. fold D. rewrite Hc. simpl. now destruct v.
  - intros c Hc Hvalid.
    rewrite (post_course_availability_eq env params st c Hc).
    cbn zeta. fold D. now rewrite Hvalid.
Qed.

End Availability.

(** * Text files *)

Section Text.

Import TextFiles.

Lemma split_go_char_pieces (c : ascii) (s : string) :
  Forall (λ piece, str_contains (String c "") piece = false)
    (split_go (String c "") 0 s).
Proof.
  induction s as [|a s IH].
  - repeat constructor.
  - rewrite split_go_char. destruct (ascii_dec c a) as [<-|Hne].
    + constructor; [reflexivity|exact IH].
    + destruct (split_go (String c "") 0 s) as [|seg segs].
      * repeat constructor. rewrite str_contains_char_cons.
        now destruct (ascii_dec c a).
      * inversion IH as [|? ? Hseg Hsegs]; subst. constructor; [|exact Hsegs].
        rewrite str_contains_char_cons, Hseg. now destruct (ascii_dec c a).
Qed.

Lemma str_join_cons (sep s : string) (l : list string) :
  l ≠ [] → str_join sep (s :: l) = s ++ sep ++ str_join sep l.
Proof. destruct l; [congruence|reflexivity]. Qed.

(** Joining the pieces with the separator gives the text back. *)
Lemma str_join_split_char (c : ascii) (s : string) :
  str_join (String c "") (split_go (String c "") 0 s) = s.
Proof.
  induction s as [|a s IH]; [reflexivity|].
  rewrite split_go_char. destruct (ascii_dec c a) as [<-|Hne].
  - rewrite str_join_cons by apply split_go_nonempty. now rewrite IH.
  - destruct (split_go (String c "") 0 s) as [|seg segs] eqn:E.
    + destruct (split_go_nonempty _ _ _ E).
    + destruct segs as [|seg' segs].
      * simpl in IH |- *. now rewrite IH.
      * rewrite str_join_cons by discriminate.
        rewrite str_join_cons in IH by discriminate.
        rewrite <- IH. reflexivity.
Qed.

Lemma filter_all {A} (f : A → bool) (l : list A) :
  Forall (λ x, f x = true) l → List.filter f l = l.
Proof.
  induction 1 as [|x l Hx _ IH]; [reflexivity|].
  simpl. now rewrite Hx, IH.
Qed.

(** X22.  For a file that is there, [_text_file_to_safe_dom] yields [pre]
    elements only, none with an empty text or a line feed in it, and never
    the placeholder: an empty file gives the empty list.  When no line of
    the file is empty, the texts joined by line feeds are the file as
    [_text_file_to_string] returns it.  The placeholder is what a missing
    file gives. *)
Theorem _text_file_to_safe_dom_lines (content placeholder : string) :
  ∃ l, _text_file_to_safe_dom (Some content) placeholder = Ok l
       ∧ Forall (λ n, ∃ text, n = Element "pre" text ∧ text ≠ ""
                              ∧ str_contains nl text = false) l
       ∧ (content = "" → l = [])
       ∧ (Forall (λ line, line ≠ "") (split_go nl 0 content) →
          str_join nl (map node_text l)
          = _text_file_to_string (Some content) placeholder)
       ∧ _text_file_to_safe_dom None placeholder
         = Ok [Placeholder placeholder].
Proof.
  unfold _text_file_to_safe_dom, str_split. simpl.
  eexists. split; [reflexivity|]. split; [|split; [|split]].
  - unfold nl. generalize (split_go_char_pieces "010" content).
    generalize (split_go (String "010" "") 0 content).
    intros pieces Hpieces.
    induction Hpieces as [|piece pieces Hpiece _ IH]; [constructor|].
    simpl. destruct (piece =? "")%string eqn:E; simpl; [exact IH|].
    constructor; [|exact IH].
    exists piece. split; [reflexivity|].
    split; [now apply String.eqb_neq|exact Hpiece].
  - intros ->. reflexivity.
  - intros Hlines. rewrite filter_all.
    + rewrite map_map. simpl. rewrite map_id.
      apply (str_join_split_char "010").
    + eapply Forall_impl; [exact Hlines|].
      intros line Hline. simpl in *. apply negb_true_iff.
      now apply String.eqb_neq.
  - reflexivity.
Qed.

End Text.

(** * A PUT with nothing to save *)

(** X23.  A course settings PUT that passes every check and whose entity,
    once validated and redacted, is empty gets no response at all, and
    nothing is merged or saved: [put] only answers when there is data to
    save. *)
Theorem settings_put_empty_entity (env : Env) (params : gmap string string)
    (req request_data : gmap string value) (key payload : value)
    (p : string) (st : hstate) :
  is_editable_fs env = true →
  request_get params "request" ≠ "" →
  loads env (request_get params "request") = Some (VDict req) →
  req !! "key" = Some key → truthy key = true →
  req !! "payload" = Some (VStr p) → p ≠ "" →
  loads env p = Some payload →
  xsrf_token_valid env (VDict req) CourseSettingsRESTHandler.XSRF_ACTION
  = true →
  can_edit env = true →
  settings_convert_json_to_entity env payload = Ok request_data →
  settings_validate env request_data = [] →
  request_data !! "extra_locales" = None →
  request_data !! "course" = None →
  redacted env payload request_data = ∅ →
  CourseYamlRESTHandler.put env (CourseSettingsRESTHandler.handler env)
    params st
  = (Ok tt, st).
Proof.
  intros Hfs Hne Hloads Hkey Hkt Hp Hpne Hpl Htok Hedit Hconv Herr Hl Hc Hred.
  rewrite (put_reaches_process_put env (CourseSettingsRESTHandler.handler env)
             params req key p payload st Hfs Hne Hloads Hkey Hkt Hp Hpne
             Hpl Htok Hedit).
  simpl. unfold CourseSettingsRESTHandler.process_put, bind, lift, ret.
  rewrite Hconv. simpl. rewrite Herr. simpl. rewrite Hl, Hc. simpl.
  rewrite Hred. reflexivity.
Qed.

Lemma settings_put_empty_entity_witness :
  CourseYamlRESTHandler.put (demo_env true true)
    (CourseSettingsRESTHandler.handler (demo_env true true))
    {[ "request" := "hook-put-empty" ]} (demo_state ∅)
  = (Ok tt, demo_state ∅).
Proof.
  refine (settings_put_empty_entity (demo_env true true)
            {[ "request" := "hook-put-empty" ]}
            {[ "key" := VStr "a.b.c"; "payload" := VStr "{}" ]} ∅
            (VStr "a.b.c") (VDict ∅) "{}" (demo_state ∅)
            _ _ _ _ _ _ _ _ _ _ _ _ _ _ _).
  all: try (vm_compute; reflexivity).
  all: try discriminate.
  all: try (vm_compute; discriminate).
Defined.
